(** * Earthquake monitor: the feed hook, the list filter and the display
      utilities, embedded from the TypeScript sources.

    - [src/hooks/useEarthquakes.ts]  : [fetchEarthquakes]
    - [src/App.tsx]                  : [filteredEarthquakes]
    - [src/utils/earthquakeUtils.ts] : [getMagnitudeColor], [getMagnitudeLevel]
    - [src/utils/dateUtils.ts]       : [getTimeAgo]

    JavaScript numbers that hold magnitudes are IEEE-754 binary64 values and
    are modelled by Rocq's primitive [float] (the same format, with the same
    comparison on NaN).  Timestamps are integer milliseconds, far below 2^53,
    where binary64 arithmetic is exact; they are modelled by [Z], and
    [Math.floor (a / b)] on them by [Z.div]. *)

From Stdlib Require Import Floats ZArith Bool Lia List String Ascii.
From Stdlib Require Import Sorted Permutation DecimalString.
Import ListNotations.

Open Scope list_scope.
Open Scope string_scope.
Open Scope Z_scope.

(* ================================================================= *)
(** ** JavaScript primitives used by the sources *)

Module Js.

(** [a >= b] on numbers: false as soon as one side is NaN. *)
Definition ge (a b : float) : bool := (b <=? a)%float.

(** [ToNumber] on a value that is a number or [null]: [null] becomes [+0]. *)
Definition toNumber (v : option float) : float :=
  match v with
  | Some x => x
  | None => 0%float
  end.

(** One code unit of [String.prototype.toLowerCase].  Strings are byte
    strings here; the letters [A]..[Z] are mapped to [a]..[z] and every
    other unit is left as it is.  This is the method on the ASCII range
    only: the properties that depend on how a text is lowered are stated for
    ASCII texts. *)
Definition lower_unit (c : ascii) : ascii :=
  let n := N_of_ascii c in
  if ((65 <=? n) && (n <=? 90))%N then ascii_of_N (n + 32) else c.

Fixpoint toLowerCase (s : string) : string :=
  match s with
  | EmptyString => EmptyString
  | String c r => String (lower_unit c) (toLowerCase r)
  end.

(** [s.includes(t)]: [t] occurs in [s] at some position. *)
Fixpoint includes (s t : string) : bool :=
  String.prefix t s ||
  match s with
  | EmptyString => false
  | String _ r => includes r t
  end.

(** [`${n}`] for an integer-valued number. *)
Definition numberToString (n : Z) : string :=
  NilZero.string_of_int (Z.to_int n).

(** [Array.prototype.filter]. *)
Definition array_filter {A : Type} (f : A -> bool) (l : list A) : list A :=
  List.filter f l.

(** [Array.prototype.sort (comparefn)]: the sort is stable, an element [x]
    goes before [y] when [comparefn x y < 0] and elements that compare as
    [0] keep their order.  For a consistent comparator this fixes the
    result, whatever algorithm the engine runs; insertion from the right
    computes it. *)
Fixpoint sort_insert {A : Type} (cmp : A -> A -> Z) (x : A) (l : list A) : list A :=
  match l with
  | [] => [x]
  | y :: r => if cmp x y <=? 0 then x :: l else y :: sort_insert cmp x r
  end.

Definition array_sort {A : Type} (cmp : A -> A -> Z) (l : list A) : list A :=
  fold_right (sort_insert cmp) [] l.

(** What a [catch] clause can receive: an [Error] object with its message,
    or any other thrown value. *)
Inductive Thrown : Type :=
| ErrorObject (message : string)
| OtherValue.

End Js.

(* ================================================================= *)
(** ** The event record *)

(** Modelled from the spec: [src/types/earthquake.ts] is not among the
    sources.  The spec's data model gives an event an identity, a magnitude
    that may be absent ([null] in the feed), a place that may be absent and an
    integer timestamp in milliseconds; the sources read them as
    [earthquake.id] and [earthquake.properties.{mag,place,time}].  The
    remaining metadata fields are not read by the functions below. *)
Record Properties : Type := mkProperties {
  mag : option float;
  place : option string;
  time : Z
}.

Record Earthquake : Type := mkEarthquake {
  id : string;
  properties : Properties
}.

(* ================================================================= *)
(** ** [src/utils/earthquakeUtils.ts] *)

Definition getMagnitudeColor (magnitude : float) : string :=
  if Js.ge magnitude 7 then "text-red-600 bg-red-100"
  else if Js.ge magnitude 5.5 then "text-orange-600 bg-orange-100"
  else if Js.ge magnitude 4 then "text-yellow-600 bg-yellow-100"
  else if Js.ge magnitude 2.5 then "text-blue-600 bg-blue-100"
  else "text-green-600 bg-green-100".

Definition getMagnitudeLevel (magnitude : float) : string :=
  if Js.ge magnitude 7 then "Major"
  else if Js.ge magnitude 5.5 then "Strong"
  else if Js.ge magnitude 4 then "Moderate"
  else if Js.ge magnitude 2.5 then "Minor"
  else "Micro".

(* ================================================================= *)
(** ** [src/utils/dateUtils.ts] *)

(** [getTimeAgo]; the reading of [Date.now ()] is the argument [now]. *)
Definition getTimeAgo (now timestamp : Z) : string :=
  let diff := now - timestamp in
  let minutes := diff / (1000 * 60) in
  let hours := diff / (1000 * 60 * 60) in
  let days := diff / (1000 * 60 * 60 * 24) in
  if minutes <? 60 then
    Js.numberToString minutes ++ " minute" ++ (if negb (minutes =? 1) then "s" else "") ++ " ago"
  else if hours <? 24 then
    Js.numberToString hours ++ " hour" ++ (if negb (hours =? 1) then "s" else "") ++ " ago"
  else
    Js.numberToString days ++ " day" ++ (if negb (days =? 1) then "s" else "") ++ " ago".

(* ================================================================= *)
(** ** [src/App.tsx]: the filter *)

(** [earthquake.properties.place?.toLowerCase().includes(searchTerm.toLowerCase()) ?? false] *)
Definition matchesSearch (searchTerm : string) (earthquake : Earthquake) : bool :=
  match place (properties earthquake) with
  | Some p => Js.includes (Js.toLowerCase p) (Js.toLowerCase searchTerm)
  | None => false
  end.

(** [earthquake.properties.mag >= minMagnitude] *)
Definition matchesMagnitude (minMagnitude : float) (earthquake : Earthquake) : bool :=
  Js.ge (Js.toNumber (mag (properties earthquake))) minMagnitude.

Definition filteredEarthquakes
    (earthquakes : list Earthquake) (searchTerm : string) (minMagnitude : float)
  : list Earthquake :=
  Js.array_filter
    (fun earthquake =>
       matchesSearch searchTerm earthquake && matchesMagnitude minMagnitude earthquake)
    earthquakes.

(* ================================================================= *)
(** ** [src/hooks/useEarthquakes.ts]: the feed hook *)

(** The four [useState] cells of the hook. *)
Record HookState : Type := mkHookState {
  earthquakes : list Earthquake;
  loading : bool;
  error : option string;
  lastUpdated : option Z
}.

(** The initial cells: [useState([])], [useState(true)], [useState(null)],
    [useState(null)]. *)
Definition initialState : HookState :=
  {| earthquakes := []; loading := true; error := None; lastUpdated := None |}.

(** What the network answers to the single [fetch]: the promise rejects
    (transport failure), or it resolves to a response with a status and a
    body whose [json ()] promise rejects or resolves to the decoded
    [features]. *)
Inductive FetchReply : Type :=
| Rejects (reason : Js.Thrown)
| Resolves (status : Z) (json : Js.Thrown + list Earthquake).

(** [response.ok]: the status is in the range 200..299. *)
Definition ok (status : Z) : bool := (200 <=? status) && (status <=? 299).

(** Statements of the hook's body: they update the cells and either complete
    with a value or throw. *)
Definition Hook (A : Type) : Type := HookState -> HookState * (Js.Thrown + A).

Definition ret {A : Type} (a : A) : Hook A := fun s => (s, inr a).

Definition throw {A : Type} (e : Js.Thrown) : Hook A := fun s => (s, inl e).

Definition bind {A B : Type} (m : Hook A) (k : A -> Hook B) : Hook B :=
  fun s =>
    match m s with
    | (s', inr a) => k a s'
    | (s', inl e) => (s', inl e)
    end.

(** [await p]: the value of a settled promise, or its rejection thrown. *)
Definition await {A : Type} (p : Js.Thrown + A) : Hook A :=
  match p with
  | inr a => ret a
  | inl e => throw e
  end.

(** [try { body } catch (err) { handler } finally { finalizer }] *)
Definition try_catch_finally {A : Type}
    (body : Hook A) (handler : Js.Thrown -> Hook A) (finalizer : Hook unit) : Hook A :=
  fun s =>
    let '(s1, r1) :=
      match body s with
      | (s', inl e) => handler e s'
      | done => done
      end in
    match finalizer s1 with
    | (s2, inr _) => (s2, r1)
    | (s2, inl e) => (s2, inl e)
    end.

Declare Scope hook_scope.
Delimit Scope hook_scope with hook.
Notation "x <- m ;; k" := (bind m (fun x => k))
  (at level 61, m at next level, right associativity) : hook_scope.
Notation "m ;; k" := (bind m (fun _ => k))
  (at level 61, right associativity) : hook_scope.

Definition setEarthquakes (v : list Earthquake) : Hook unit :=
  fun s => ({| earthquakes := v; loading := loading s; error := error s;
               lastUpdated := lastUpdated s |}, inr tt).

Definition setLoading (v : bool) : Hook unit :=
  fun s => ({| earthquakes := earthquakes s; loading := v; error := error s;
               lastUpdated := lastUpdated s |}, inr tt).

Definition setError (v : option string) : Hook unit :=
  fun s => ({| earthquakes := earthquakes s; loading := loading s; error := v;
               lastUpdated := lastUpdated s |}, inr tt).

Definition setLastUpdated (v : option Z) : Hook unit :=
  fun s => ({| earthquakes := earthquakes s; loading := loading s; error := error s;
               lastUpdated := v |}, inr tt).

(** [(a, b) => b.properties.time - a.properties.time] *)
Definition byTimeDescending (a b : Earthquake) : Z :=
  time (properties b) - time (properties a).

(** [fetchEarthquakes]; [reply] is what the network answers and [clock] what
    [new Date ()] reads.  The [console.error] of the handler writes no cell
    and is left out. *)
Definition fetchEarthquakes (reply : FetchReply) (clock : Z) : Hook unit :=
  try_catch_finally
    (setLoading true ;;
     setError None ;;
     response <- match reply with
                 | Rejects reason => throw reason
                 | Resolves status json => ret (status, json)
                 end ;;
     (if negb (ok (fst response))
      then throw (Js.ErrorObject
                    ("HTTP error! status: " ++ Js.numberToString (fst response)))
      else ret tt) ;;
     features <- await (snd response) ;;
     let sortedEarthquakes := Js.array_sort byTimeDescending features in
     setEarthquakes sortedEarthquakes ;;
     setLastUpdated (Some clock))%hook
    (fun err =>
       setError (Some match err with
                      | Js.ErrorObject message => message
                      | Js.OtherValue => "Failed to fetch earthquake data"
                      end))
    (setLoading false).

(** The cells after one call of [fetchEarthquakes]. *)
Definition afterFetch (reply : FetchReply) (clock : Z) (s : HookState) : HookState :=
  fst (fetchEarthquakes reply clock s).

(** A fetch fails when the transport fails or the status is not a success. *)
Definition fetchFails (reply : FetchReply) : Prop :=
  match reply with
  | Rejects _ => True
  | Resolves status _ => ok status = false
  end.

(** The five colour tokens and the five tier names of
    [src/utils/earthquakeUtils.ts], from the highest tier down. *)
Definition colorTokens : list string :=
  [ "text-red-600 bg-red-100"; "text-orange-600 bg-orange-100";
    "text-yellow-600 bg-yellow-100"; "text-blue-600 bg-blue-100";
    "text-green-600 bg-green-100" ].

Definition levelNames : list string :=
  [ "Major"; "Strong"; "Moderate"; "Minor"; "Micro" ].

(** The position of a magnitude in the threshold chain shared by the two
    functions: the number of tests that fail before one succeeds. *)
Definition tierIndex (magnitude : float) : nat :=
  if Js.ge magnitude 7 then 0
  else if Js.ge magnitude 5.5 then 1
  else if Js.ge magnitude 4 then 2
  else if Js.ge magnitude 2.5 then 3
  else 4.

(** The comparisons of the spec, on binary64 values. *)
Definition atLeast (m threshold : float) : Prop := (threshold <=? m)%float = true.
Definition below (m threshold : float) : Prop := (m <? threshold)%float = true.

(* ================================================================= *)
(** ** The statements of the spec *)

(** A stable filter, as a relation between the input and the output: the
    output is the input with exactly the elements that fail [P] removed, the
    others in their places. *)
Inductive StableFilter {A : Type} (P : A -> Prop) : list A -> list A -> Prop :=
| StableFilter_nil : StableFilter P [] []
| StableFilter_keep (x : A) (l k : list A) :
    P x -> StableFilter P l k -> StableFilter P (x :: l) (x :: k)
| StableFilter_drop (x : A) (l k : list A) :
    ~ P x -> StableFilter P l k -> StableFilter P (x :: l) k.

(** Two strings are equal up to the case of their letters. *)
Definition equalIgnoringCase (a b : string) : Prop :=
  Js.toLowerCase a = Js.toLowerCase b.

(** [text] contains [term] case-insensitively: some stretch of [text] equals
    [term] up to case. *)
Definition containsIgnoringCase (text term : string) : Prop :=
  exists before found after : string,
    text = before ++ found ++ after /\ equalIgnoringCase found term.

(** The magnitude of an event as the comparison reads it: an absent one
    counts as 0. *)
Definition magnitudeOf (e : Earthquake) : float :=
  Js.toNumber (mag (properties e)).

Definition placePresent (e : Earthquake) : Prop :=
  place (properties e) <> None.

(** The events the spec keeps: the place is present and contains the search
    term case-insensitively, and the magnitude is at least the minimum. *)
Definition keptBySpec (searchTerm : string) (minMagnitude : float) (e : Earthquake) : Prop :=
  (exists p : string,
      place (properties e) = Some p /\ containsIgnoringCase p searchTerm) /\
  atLeast (magnitudeOf e) minMagnitude.

(** The message a failed fetch leaves in the error cell: the message of the
    [Error] that reached the handler, or the fallback text for any other
    thrown value; a response with a non-success status throws an [Error]
    that names the status. *)
Definition failureMessage (reply : FetchReply) : string :=
  match reply with
  | Rejects (Js.ErrorObject message) => message
  | Rejects Js.OtherValue => "Failed to fetch earthquake data"
  | Resolves status _ => "HTTP error! status: " ++ Js.numberToString status
  end.

(** [x] may stand before [y] in an array sorted with [cmp]. *)
Definition standsBefore {A : Type} (cmp : A -> A -> Z) (x y : A) : Prop :=
  cmp x y <= 0.

(** Most recent first. *)
Definition timeDescending (a b : Earthquake) : Prop :=
  time (properties a) >= time (properties b).

(** The relative age of the spec: a count, a noun in the singular for a count
    of one and in the plural otherwise, then "ago"; whole minutes under 60
    minutes, whole hours under 24 hours, whole days otherwise. *)
Definition agePhrase (count : Z) (noun : string) : string :=
  Js.numberToString count ++ " " ++ noun ++ (if count =? 1 then "" else "s") ++ " ago".

Definition msPerMinute : Z := 60000.
Definition msPerHour : Z := 3600000.
Definition msPerDay : Z := 86400000.

Definition relativeAge (age : Z) : string :=
  if age <? 60 * msPerMinute then agePhrase (age / msPerMinute) "minute"
  else if age <? 24 * msPerHour then agePhrase (age / msPerHour) "hour"
  else agePhrase (age / msPerDay) "day".

(** The three events of the end-to-end scenario of the spec, with the
    identities and the times left to the caller. *)
Definition scenarioEvent (i : string) (m : float) (p : string) (t : Z) : Earthquake :=
  {| id := i; properties := {| mag := Some m; place := Some p; time := t |} |}.

Definition scenario (i1 i2 i3 : string) (t1 t2 t3 : Z) : list Earthquake :=
  [ scenarioEvent i1 6.0 "Tokyo Bay" t1;
    scenarioEvent i2 2.0 "" t2;
    scenarioEvent i3 4.5 "Near Tokyo" t3 ].

(** An event of the feed with no place, and one with a magnitude below
    zero (the feed reports such magnitudes for very small events). *)
Definition eventWithoutPlace : Earthquake :=
  {| id := "us7000abcd";
     properties := {| mag := Some 4.5%float; place := None; time := 1700000000000 |} |}.

Definition eventBelowZero : Earthquake :=
  {| id := "av93812345";
     properties := {| mag := Some (-0.5)%float; place := Some "12 km W of Akutan, Alaska";
                      time := 1700000000000 |} |}.

(* ================================================================= *)
(** ** Readings of the hook's replies *)

(** The reply is a full success: a success status and a body that decodes.
    Only then does [fetchEarthquakes] reach [setEarthquakes]. *)
Definition fetchSucceeds (reply : FetchReply) : Prop :=
  match reply with
  | Resolves status (inr _) => ok status = true
  | _ => False
  end.

(** The events of a list that carry the timestamp [t], in their order. *)
Definition atTime (t : Z) (l : list Earthquake) : list Earthquake :=
  List.filter (fun e => time (properties e) =? t) l.

(* ================================================================= *)
(** ** [src/components/EarthquakeCard.tsx], [src/components/EarthquakeMap.tsx]:
       recent events *)

(** [const isRecent = Date.now() - properties.time < 3600000], with the
    reading of [Date.now ()] as the argument [now]. *)
Definition isRecent (now : Z) (earthquake : Earthquake) : bool :=
  now - time (properties earthquake) <? 3600000.

(** [getRecentEarthquakes] of [EarthquakeMap]. *)
Definition getRecentEarthquakes (now : Z) (earthquakes : list Earthquake)
  : list Earthquake :=
  let oneHourAgo := now - 3600000 in
  Js.array_filter (fun eq => time (properties eq) >? oneHourAgo) earthquakes.

(* ================================================================= *)
(** ** More JavaScript primitives on numbers *)

Module JsNum.

(** [a < b] on numbers: false as soon as one side is NaN. *)
Definition lt (a b : float) : bool := (a <? b)%float.

(** The truth value of a number: [+0], [-0] and NaN are false. *)
Definition truthy (x : float) : bool :=
  negb (PrimFloat.is_zero x || PrimFloat.is_nan x).

(** [v || 0] on a value that is a number or [null]. *)
Definition orZero (v : option float) : float :=
  match v with
  | Some x => if truthy x then x else 0%float
  | None => 0%float
  end.

Definition isPositiveZero (x : float) : bool :=
  match classify x with
  | PZero => true
  | _ => false
  end.

Definition isNegativeZero (x : float) : bool :=
  match classify x with
  | NZero => true
  | _ => false
  end.

(** One argument of [Math.max]: a NaN makes the result NaN, [+0] counts as
    larger than [-0], otherwise a larger number replaces the highest. *)
Definition max_step (highest number : float) : float :=
  if PrimFloat.is_nan number then nan
  else if isPositiveZero number && isNegativeZero highest then number
  else if (highest <? number)%float then number
  else highest.

(** [Math.max (...values)]: [-Infinity] with no argument. *)
Definition mathMax (values : list float) : float :=
  fold_left max_step values neg_infinity.

(** One argument of [Math.min], and [Math.min (...values)]: [+Infinity] with
    no argument. *)
Definition min_step (lowest number : float) : float :=
  if PrimFloat.is_nan number then nan
  else if isNegativeZero number && isPositiveZero lowest then number
  else if (number <? lowest)%float then number
  else lowest.

Definition mathMin (values : list float) : float :=
  fold_left min_step values infinity.

End JsNum.

(* ================================================================= *)
(** ** [src/components/EarthquakeMap.tsx]: marker colours, marker size and
       the footer statistics; [src/App.tsx]: the highest magnitude *)

Record MarkerColors : Type := mkMarkerColors {
  bg : string;
  border : string;
  glow : string
}.

(** [getMarkerColors] of [createAdvancedMagnitudeMarker]. *)
Definition getMarkerColors (mag : float) : MarkerColors :=
  if Js.ge mag 7 then {| bg := "#dc2626"; border := "#991b1b"; glow := "#fca5a5" |}
  else if Js.ge mag 5.5 then {| bg := "#ea580c"; border := "#c2410c"; glow := "#fed7aa" |}
  else if Js.ge mag 4 then {| bg := "#ca8a04"; border := "#a16207"; glow := "#fde047" |}
  else if Js.ge mag 2.5 then {| bg := "#2563eb"; border := "#1d4ed8"; glow := "#93c5fd" |}
  else {| bg := "#16a34a"; border := "#15803d"; glow := "#86efac" |}.

(** [const baseSize = Math.max(24, Math.min(60, magnitude * 8))] *)
Definition baseSize (magnitude : float) : float :=
  JsNum.mathMax [24%float; JsNum.mathMin [60%float; (magnitude * 8)%float]].

(** The three counts of the footer:
    [earthquakes.filter(eq => eq.properties.mag >= 5).length],
    [earthquakes.filter(eq => eq.properties.mag >= 3 && eq.properties.mag < 5).length],
    [earthquakes.filter(eq => eq.properties.mag < 3).length].
    A [null] magnitude is compared as [+0]. *)
Definition countMajor (earthquakes : list Earthquake) : nat :=
  List.length
    (Js.array_filter (fun eq => Js.ge (Js.toNumber (mag (properties eq))) 5) earthquakes).

Definition countModerate (earthquakes : list Earthquake) : nat :=
  List.length
    (Js.array_filter
       (fun eq => Js.ge (Js.toNumber (mag (properties eq))) 3 &&
                  JsNum.lt (Js.toNumber (mag (properties eq))) 5)
       earthquakes).

Definition countMinor (earthquakes : list Earthquake) : nat :=
  List.length
    (Js.array_filter (fun eq => JsNum.lt (Js.toNumber (mag (properties eq))) 3) earthquakes).

(** [Math.max(...earthquakes.map(eq => eq.properties.mag || 0))], the number
    that the "Highest Mag" statistics format. *)
Definition highestMagnitude (earthquakes : list Earthquake) : float :=
  JsNum.mathMax (List.map (fun eq => JsNum.orZero (mag (properties eq))) earthquakes).

(** A number that is not NaN. *)
Definition notNaN (x : float) : Prop := PrimFloat.is_nan x = false.

(** The five marker palettes of [getMarkerColors], from the highest tier
    down. *)
Definition markerPalettes : list MarkerColors :=
  [ {| bg := "#dc2626"; border := "#991b1b"; glow := "#fca5a5" |};
    {| bg := "#ea580c"; border := "#c2410c"; glow := "#fed7aa" |};
    {| bg := "#ca8a04"; border := "#a16207"; glow := "#fde047" |};
    {| bg := "#2563eb"; border := "#1d4ed8"; glow := "#93c5fd" |};
    {| bg := "#16a34a"; border := "#15803d"; glow := "#86efac" |} ].

(* ================================================================= *)
(** ** [src/App.tsx]: the cells of the component, its handlers and the
       conditions of its panels *)

Module App.

(** ['list' | 'map'] *)
Inductive View : Type := ListView | MapView.

(** The [useState] cells of [App]. *)
Record Cells : Type := mkCells {
  selectedEarthquake : option Earthquake;
  isModalOpen : bool;
  searchTerm : string;
  minMagnitude : float;
  activeView : View;
  darkMode : bool
}.

(** [useState(null)], [useState(false)], [useState('')], [useState(0)],
    [useState('map')], [useState(false)]. *)
Definition initialCells : Cells :=
  {| selectedEarthquake := None; isModalOpen := false; searchTerm := "";
     minMagnitude := 0%float; activeView := MapView; darkMode := false |}.

Definition handleEarthquakeClick (earthquake : Earthquake) (c : Cells) : Cells :=
  {| selectedEarthquake := Some earthquake; isModalOpen := true;
     searchTerm := searchTerm c; minMagnitude := minMagnitude c;
     activeView := activeView c; darkMode := darkMode c |}.

Definition handleCloseModal (c : Cells) : Cells :=
  {| selectedEarthquake := None; isModalOpen := false;
     searchTerm := searchTerm c; minMagnitude := minMagnitude c;
     activeView := activeView c; darkMode := darkMode c |}.

Definition toggleDarkMode (c : Cells) : Cells :=
  {| selectedEarthquake := selectedEarthquake c; isModalOpen := isModalOpen c;
     searchTerm := searchTerm c; minMagnitude := minMagnitude c;
     activeView := activeView c; darkMode := negb (darkMode c) |}.

Definition setSearchTerm (term : string) (c : Cells) : Cells :=
  {| selectedEarthquake := selectedEarthquake c; isModalOpen := isModalOpen c;
     searchTerm := term; minMagnitude := minMagnitude c;
     activeView := activeView c; darkMode := darkMode c |}.

Definition setMinMagnitude (magnitude : float) (c : Cells) : Cells :=
  {| selectedEarthquake := selectedEarthquake c; isModalOpen := isModalOpen c;
     searchTerm := searchTerm c; minMagnitude := magnitude;
     activeView := activeView c; darkMode := darkMode c |}.

Definition setActiveView (view : View) (c : Cells) : Cells :=
  {| selectedEarthquake := selectedEarthquake c; isModalOpen := isModalOpen c;
     searchTerm := searchTerm c; minMagnitude := minMagnitude c;
     activeView := view; darkMode := darkMode c |}.

(** What the user and the network can do to a mounted [App]: the hook's
    cells and the component's cells change by these steps only. *)
Inductive Action : Type :=
| ClickEarthquake (earthquake : Earthquake)
| CloseModal
| ToggleDarkMode
| TypeSearchTerm (term : string)
| SlideMinMagnitude (magnitude : float)
| ChooseView (view : View)
| Refresh (reply : FetchReply) (clock : Z).

Definition step (state : HookState * Cells) (a : Action) : HookState * Cells :=
  let (h, c) := state in
  match a with
  | ClickEarthquake earthquake => (h, handleEarthquakeClick earthquake c)
  | CloseModal => (h, handleCloseModal c)
  | ToggleDarkMode => (h, toggleDarkMode c)
  | TypeSearchTerm term => (h, setSearchTerm term c)
  | SlideMinMagnitude magnitude => (h, setMinMagnitude magnitude c)
  | ChooseView view => (h, setActiveView view c)
  | Refresh reply clock => (afterFetch reply clock h, c)
  end.

(** The state after the mount (the effect of the hook fetches once) and a
    sequence of actions. *)
Definition run (reply : FetchReply) (clock : Z) (actions : list Action)
  : HookState * Cells :=
  fold_left step actions (afterFetch reply clock initialState, initialCells).

(** [EarthquakeModal]: [if (!earthquake) return null], then the dialog under
    [isOpen &&]. *)
Definition modalShown (c : Cells) : option Earthquake :=
  match selectedEarthquake c with
  | None => None
  | Some earthquake => if isModalOpen c then Some earthquake else None
  end.

(** The truth value of the error cell: [null] and the empty string are
    false. *)
Definition errorTruthy (h : HookState) : bool :=
  match error h with
  | Some message => negb (String.eqb message "")
  | None => false
  end.

Definition filtered (h : HookState) (c : Cells) : list Earthquake :=
  filteredEarthquakes (earthquakes h) (searchTerm c) (minMagnitude c).

(** The conditions under which the content panels are rendered. *)
Definition showSpinner (h : HookState) : bool := loading h.

Definition showError (h : HookState) : bool := errorTruthy h.

Definition showNoMatch (h : HookState) (c : Cells) : bool :=
  negb (loading h) && negb (errorTruthy h) &&
  (List.length (filtered h c) =? 0)%nat && (0 <? List.length (earthquakes h))%nat.

Definition showNoData (h : HookState) : bool :=
  negb (loading h) && negb (errorTruthy h) && (List.length (earthquakes h) =? 0)%nat.

Definition showMap (h : HookState) (c : Cells) : bool :=
  negb (loading h) && negb (errorTruthy h) &&
  match activeView c with MapView => true | ListView => false end &&
  (0 <? List.length (filtered h c))%nat.

Definition showList (h : HookState) (c : Cells) : bool :=
  negb (loading h) && negb (errorTruthy h) &&
  match activeView c with ListView => true | MapView => false end &&
  (0 <? List.length (filtered h c))%nat.

(** The number of content panels whose condition holds. *)
Definition panelsShown (h : HookState) (c : Cells) : nat :=
  (Nat.b2n (showSpinner h) + Nat.b2n (showError h) + Nat.b2n (showNoMatch h c) +
   Nat.b2n (showNoData h) + Nat.b2n (showMap h c) + Nat.b2n (showList h c))%nat.

End App.

(** The dialog is open exactly when an event is selected. *)
Definition modalInvariant (c : App.Cells) : Prop :=
  App.isModalOpen c = true <-> App.selectedEarthquake c <> None.

(* ================================================================= *)
(** ** [Number.prototype.toFixed] *)

Module JsText.

(** The first [n] units of a string and the others. *)
Fixpoint take (n : nat) (s : string) : string :=
  match n, s with
  | S k, String c r => String c (take k r)
  | _, _ => EmptyString
  end.

Fixpoint drop (n : nat) (s : string) : string :=
  match n, s with
  | S k, String _ r => drop k r
  | _, _ => s
  end.

Fixpoint zeros (n : nat) : string :=
  match n with
  | O => EmptyString
  | S k => String "0" (zeros k)
  end.

(** The text of [toFixed] for the integer [n >= 0] of the scaled value: the
    decimal digits of [n] ("0" for 0), padded on the left with zeros to
    [f + 1] digits, with a point before the last [f] digits when [f] is not
    0. *)
Definition fixedText (f : nat) (n : Z) : string :=
  let m := Js.numberToString n in
  if (f =? 0)%nat then m
  else
    let k := String.length m in
    let m' := if (k <=? f)%nat then zeros (f + 1 - k) ++ m else m in
    let k' := String.length m' in
    take (k' - f) m' ++ "." ++ drop (k' - f) m'.

(** The integer [n] for which [n / 10^f] is closest to [mant * 2^e], the
    larger one when two are as close. *)
Definition nearestScaled (f : nat) (mant : positive) (e : Z) : Z :=
  let num := Zpos mant * 10 ^ Z.of_nat f in
  if 0 <=? e then num * 2 ^ e
  else (2 * num + 2 ^ (- e)) / (2 * 2 ^ (- e)).

(** [mant * 2^e >= 10^21] *)
Definition atLeast1e21 (mant : positive) (e : Z) : bool :=
  if 0 <=? e then 10 ^ 21 <=? Zpos mant * 2 ^ e
  else 10 ^ 21 * 2 ^ (- e) <=? Zpos mant.

(** [x.toFixed(f)] for [0 <= f <= 100], on the exact value of [x].  A value
    that is not finite gives its name; a negative value gives a minus sign
    and the text of its opposite; [-0] is not negative.  For a finite value
    of 10^21 or more the method falls back to the exponent notation of
    [ToString], which is not modelled: the result is [None] there. *)
Definition toFixed (f : nat) (x : float) : option string :=
  match Prim2SF x with
  | S754_nan => Some "NaN"
  | S754_infinity false => Some "Infinity"
  | S754_infinity true => Some "-Infinity"
  | S754_zero _ => Some (fixedText f 0)
  | S754_finite s mant e =>
      if atLeast1e21 mant e then None
      else Some ((if s then "-" else "") ++ fixedText f (nearestScaled f mant e))
  end.

End JsText.

(** The rest of [src/utils/earthquakeUtils.ts].  The degree sign is held in
    its UTF-8 encoding. *)
Definition formatCoordinates (longitude latitude : float) : option string :=
  let latDir := if Js.ge latitude 0 then "N" else "S" in
  let lonDir := if Js.ge longitude 0 then "E" else "W" in
  match JsText.toFixed 4 (abs latitude), JsText.toFixed 4 (abs longitude) with
  | Some lat, Some lon => Some (lat ++ "°" ++ latDir ++ ", " ++ lon ++ "°" ++ lonDir)
  | _, _ => None
  end.

Definition formatDepth (depth : float) : option string :=
  match JsText.toFixed 1 depth with
  | Some text => Some (text ++ " km")
  | None => None
  end.

(** A text made of decimal digits only, and a fixed-point text: digits (at
    least one), a point, and exactly [f] digits. *)
Definition isDigit (c : ascii) : bool :=
  let n := N_of_ascii c in ((48 <=? n) && (n <=? 57))%N.

Fixpoint allDigits (s : string) : bool :=
  match s with
  | EmptyString => true
  | String c r => isDigit c && allDigits r
  end.

Definition fixedPoint (f : nat) (s : string) : Prop :=
  exists whole fraction : string,
    s = whole ++ "." ++ fraction /\
    whole <> "" /\ allDigits whole = true /\
    allDigits fraction = true /\ String.length fraction = f.

(* ================================================================= *)
(** ** The filter in the words of the spec, without the functions of the
       source *)

(** A text of the ASCII range.  On such a text the byte strings of this
    file are the strings of the source unit for unit, and
    [String.prototype.toLowerCase] is the map of [A]..[Z] to [a]..[z]
    that [Js.toLowerCase] computes; beyond it the method folds other cased
    letters and looks at the context (the final sigma), which the byte
    strings do not model. *)
Fixpoint asciiText (s : string) : Prop :=
  match s with
  | EmptyString => True
  | String c r => (N_of_ascii c < 128)%N /\ asciiText r
  end.

Definition asciiPlace (e : Earthquake) : Prop :=
  match place (properties e) with
  | Some p => asciiText p
  | None => True
  end.







(** The scenario of the spec with the magnitudes and the places paired as
    its explanation pairs them: the 6.0 event is the one with the empty
    place, the 2.0 event is the one that falls by its magnitude. *)
Definition scenarioInContext (i1 i2 i3 : string) (t1 t2 t3 : Z) : list Earthquake :=
  [ scenarioEvent i1 6.0 "" t1;
    scenarioEvent i2 2.0 "Tokyo Bay" t2;
    scenarioEvent i3 4.5 "Near Tokyo" t3 ].

(** An event whose magnitude is a number: present and not NaN. *)
Definition magnitudePresent (e : Earthquake) : Prop :=
  exists m : float, mag (properties e) = Some m /\ PrimFloat.is_nan m = false.

(* ================================================================= *)
(** ** What the content area renders *)

(** [EarthquakeMap] builds a marker for every event it is given, and
    [createAdvancedMagnitudeMarker] formats [magnitude.toFixed(1)]
    (EarthquakeMap.tsx:51): on a [null] magnitude the call throws a
    [TypeError]. *)
Definition markerThrows (e : Earthquake) : bool :=
  match mag (properties e) with
  | None => true
  | Some _ => false
  end.

Definition mapThrows (events : list Earthquake) : bool :=
  List.existsb markerThrows events.

(** The content area after a render: the number of panels on the screen, or
    nothing when the panel that is chosen is the map and building its
    markers throws (no error boundary catches the throw, the component tree
    is unmounted). *)
Definition contentRendered (h : HookState) (c : App.Cells) : option nat :=
  if App.showMap h c && mapThrows (App.filtered h c) then None
  else Some (App.panelsShown h c).

(* ================================================================= *)
(** * Properties *)

(** ** The order of binary64 values *)

Section FloatOrder.

Ltac order_cases :=
  repeat match goal with
  | |- context [(?a ?= ?b)%Z] => destruct (Z.compare_spec a b)
  | H : context [(?a ?= ?b)%Z] |- _ => destruct (Z.compare_spec a b)
  | |- context [(?a ?= ?b)%positive] => destruct (Pos.compare_spec a b)
  | H : context [(?a ?= ?b)%positive] |- _ => destruct (Pos.compare_spec a b)
  end.

Ltac fold_pos_compare :=
  repeat match goal with
  | |- context [Pos.compare_cont Eq ?a ?b] =>
      change (Pos.compare_cont Eq a b) with (Pos.compare a b)
  end.

Lemma SFltb_negb_SFleb (x y : spec_float) :
  x <> S754_nan -> y <> S754_nan -> SFltb x y = negb (SFleb y x).
Proof.
  intros Hx Hy. unfold SFltb, SFleb.
  destruct x as [sx|sx| |sx mx ex], y as [sy|sy| |sy my ey]; try congruence; simpl;
    try (destruct sx; reflexivity); try (destruct sy; reflexivity);
    try (destruct sx, sy; reflexivity).
  fold_pos_compare.
  destruct sx, sy; simpl; try reflexivity; order_cases; simpl; try reflexivity; lia.
Qed.

Lemma SFleb_trans (x y z : spec_float) :
  SFleb x y = true -> SFleb y z = true -> SFleb x z = true.
Proof.
  unfold SFleb.
  destruct x as [sx|sx| |sx mx ex], y as [sy|sy| |sy my ey], z as [sz|sz| |sz mz ez];
    simpl; try discriminate; try reflexivity;
    try (destruct sx; simpl; congruence);
    try (destruct sy; simpl; congruence);
    try (destruct sz; simpl; congruence);
    try (destruct sx, sy; simpl; congruence);
    try (destruct sx, sz; simpl; congruence);
    try (destruct sy, sz; simpl; congruence);
    try (destruct sx, sy, sz; simpl; congruence).
  fold_pos_compare.
  destruct sx, sy, sz; simpl; try discriminate; try reflexivity; intros H1 H2;
    order_cases; try discriminate; try reflexivity; lia.
Qed.

Lemma SFleb_nan_r (x y : spec_float) : y = S754_nan -> SFleb x y = false.
Proof. intros ->. unfold SFleb. destruct x; reflexivity. Qed.

Lemma SFltb_nan_l (x y : spec_float) : x = S754_nan -> SFltb x y = false.
Proof. intros ->. reflexivity. Qed.

(** A value is NaN or it is not. *)
Lemma nan_dec (m : float) : {Prim2SF m = S754_nan} + {Prim2SF m <> S754_nan}.
Proof. destruct (Prim2SF m); (left; reflexivity) || (right; discriminate). Qed.

Lemma leb_trans (a b c : float) :
  (a <=? b)%float = true -> (b <=? c)%float = true -> (a <=? c)%float = true.
Proof. rewrite !leb_spec. apply SFleb_trans. Qed.

Lemma leb_nan_r (t m : float) : Prim2SF m = S754_nan -> (t <=? m)%float = false.
Proof. rewrite leb_spec. apply SFleb_nan_r. Qed.

Lemma ltb_nan_l (m t : float) : Prim2SF m = S754_nan -> (m <? t)%float = false.
Proof. rewrite ltb_spec. apply SFltb_nan_l. Qed.

Lemma ltb_negb_leb (m t : float) :
  Prim2SF m <> S754_nan -> Prim2SF t <> S754_nan ->
  (m <? t)%float = negb (t <=? m)%float.
Proof. rewrite ltb_spec, leb_spec. apply SFltb_negb_SFleb. Qed.

End FloatOrder.

(** ** Severity tiers and colours *)

Section Tiers.

Lemma color_by_tier (m : float) :
  getMagnitudeColor m = nth (tierIndex m) colorTokens "".
Proof.
  unfold getMagnitudeColor, tierIndex.
  destruct (Js.ge m 7), (Js.ge m 5.5), (Js.ge m 4), (Js.ge m 2.5); reflexivity.
Qed.

Lemma level_by_tier (m : float) :
  getMagnitudeLevel m = nth (tierIndex m) levelNames "".
Proof.
  unfold getMagnitudeLevel, tierIndex.
  destruct (Js.ge m 7), (Js.ge m 5.5), (Js.ge m 4), (Js.ge m 2.5); reflexivity.
Qed.

Lemma tierIndex_bound (m : float) : (tierIndex m < 5)%nat.
Proof.
  unfold tierIndex.
  destruct (Js.ge m 7), (Js.ge m 5.5), (Js.ge m 4), (Js.ge m 2.5); lia.
Qed.

Lemma colorTokens_NoDup : NoDup colorTokens.
Proof. repeat constructor; simpl; intuition discriminate. Qed.

Lemma levelNames_NoDup : NoDup levelNames.
Proof. repeat constructor; simpl; intuition discriminate. Qed.

(** The thresholds are ordered, so a passed test passes all the lower ones. *)
Lemma thresholds_chain (m : float) :
  (Js.ge m 7 = true -> Js.ge m 5.5 = true) /\
  (Js.ge m 5.5 = true -> Js.ge m 4 = true) /\
  (Js.ge m 4 = true -> Js.ge m 2.5 = true).
Proof.
  unfold Js.ge. repeat split; apply leb_trans; reflexivity.
Qed.

End Tiers.

(** Closes the cases of the tier table once the tests are decided. *)
Ltac tier_close :=
  repeat match goal with
         | H : _ /\ _ |- _ => destruct H
         | |- ~ _ => intro
         end;
  try reflexivity; try discriminate; try tauto.

(** C7. [getMagnitudeLevel] returns "Major" exactly when the magnitude is at
    least 7, "Strong" exactly when it is at least 5.5 and below 7, "Moderate"
    exactly when it is at least 4 and below 5.5, "Minor" exactly when it is at
    least 2.5 and below 4, and "Micro" exactly when none of these holds; 6.9
    is "Strong" and 7.0 is "Major". *)
Theorem getMagnitudeLevel_tiers :
  (forall m : float,
      (getMagnitudeLevel m = "Major" <-> atLeast m 7) /\
      (getMagnitudeLevel m = "Strong" <-> atLeast m 5.5 /\ below m 7) /\
      (getMagnitudeLevel m = "Moderate" <-> atLeast m 4 /\ below m 5.5) /\
      (getMagnitudeLevel m = "Minor" <-> atLeast m 2.5 /\ below m 4) /\
      (getMagnitudeLevel m = "Micro" <->
         ~ atLeast m 7 /\ ~ (atLeast m 5.5 /\ below m 7) /\
         ~ (atLeast m 4 /\ below m 5.5) /\ ~ (atLeast m 2.5 /\ below m 4))) /\
  getMagnitudeLevel 6.9 = "Strong" /\
  getMagnitudeLevel 7.0 = "Major".
Proof.
  split; [| split; reflexivity].
  intros m. unfold atLeast, below.
  destruct (thresholds_chain m) as (H75 & H54 & H42).
  unfold getMagnitudeLevel. unfold Js.ge in *.
  destruct (nan_dec m) as [Hnan | Hnum].
  - rewrite !(leb_nan_r _ m Hnan), !(ltb_nan_l m _ Hnan).
    repeat split; intros; tier_close.
  - rewrite !(ltb_negb_leb m _ Hnum) by discriminate.
    destruct (7 <=? m)%float, (5.5 <=? m)%float, (4 <=? m)%float, (2.5 <=? m)%float;
      simpl in *;
      try (specialize (H75 eq_refl)); try (specialize (H54 eq_refl));
      try (specialize (H42 eq_refl)); try discriminate;
      repeat split; intros; tier_close.
Qed.

(** C8. The colour and the tier name are driven by the same thresholds: two
    magnitudes have the same colour exactly when they have the same tier
    name, and the colours taken are exactly five distinct tokens. *)
Theorem color_matches_level :
  (forall m1 m2 : float,
      getMagnitudeColor m1 = getMagnitudeColor m2 <->
      getMagnitudeLevel m1 = getMagnitudeLevel m2) /\
  NoDup colorTokens /\
  List.length colorTokens = 5%nat /\
  (forall c : string, In c colorTokens <-> exists m : float, getMagnitudeColor m = c).
Proof.
  split; [| split; [exact colorTokens_NoDup | split; [reflexivity |]]].
  - intros m1 m2. rewrite !color_by_tier, !level_by_tier.
    pose proof (tierIndex_bound m1) as B1. pose proof (tierIndex_bound m2) as B2.
    split; intros H.
    + apply (proj1 (NoDup_nth colorTokens "") colorTokens_NoDup) in H;
        [now rewrite H | exact B1 | exact B2].
    + apply (proj1 (NoDup_nth levelNames "") levelNames_NoDup) in H;
        [now rewrite H | exact B1 | exact B2].
  - intros c. split.
    + simpl. intros [H | [H | [H | [H | [H | []]]]]]; subst c.
      * exists 7%float. reflexivity.
      * exists 5.5%float. reflexivity.
      * exists 4%float. reflexivity.
      * exists 2.5%float. reflexivity.
      * exists 0%float. reflexivity.
    + intros [m <-]. rewrite color_by_tier. apply nth_In. apply tierIndex_bound.
Qed.

(** ** Strings: lower case and occurrence *)

Section Strings.

Lemma append_assoc (a b c : string) : (a ++ b) ++ c = a ++ b ++ c.
Proof. induction a as [| x a IH]; simpl; [reflexivity | now rewrite IH]. Qed.

Lemma toLowerCase_append (a b : string) :
  Js.toLowerCase (a ++ b) = Js.toLowerCase a ++ Js.toLowerCase b.
Proof. induction a as [| x a IH]; simpl; [reflexivity | now rewrite IH]. Qed.

(** Lower-casing works unit by unit, so a split of the lowered string is
    the image of a split of the string. *)
Lemma toLowerCase_split (s x y : string) :
  Js.toLowerCase s = x ++ y ->
  exists a b : string, s = a ++ b /\ Js.toLowerCase a = x /\ Js.toLowerCase b = y.
Proof.
  revert s. induction x as [| c x IH]; intros s H.
  - exists "", s. auto.
  - destruct s as [| c0 s]; simpl in H; [discriminate |].
    injection H as Hc Hs.
    destruct (IH s Hs) as (a & b & -> & Ha & Hb).
    exists (String c0 a), b. simpl. rewrite Ha, Hc. auto.
Qed.

Lemma prefix_true (t s : string) :
  String.prefix t s = true <-> exists r : string, s = t ++ r.
Proof.
  revert s. induction t as [| a t IH]; intros s; simpl.
  - destruct s; split; eauto.
  - destruct s as [| b s]; simpl.
    + split; [discriminate | intros [r H]; discriminate].
    + destruct (ascii_dec a b) as [-> | Hne].
      * rewrite IH. split; intros [r H]; exists r.
        -- now rewrite H.
        -- now injection H.
      * split; [discriminate |]. intros [r H]. injection H as H1 _. congruence.
Qed.

Lemma includes_true (s t : string) :
  Js.includes s t = true <-> exists before after : string, s = before ++ t ++ after.
Proof.
  induction s as [| c s IH].
  - cbn [Js.includes]. rewrite orb_false_r, prefix_true. split.
    + intros [r H]. exists "", r. exact H.
    + intros (before & after & H).
      destruct before; [exists after; exact H | discriminate].
  - cbn [Js.includes]. rewrite orb_true_iff, prefix_true, IH. split.
    + intros [[r H] | (before & after & H)].
      * exists "", r. exact H.
      * exists (String c before), after. simpl. now rewrite H.
    + intros (before & after & H). destruct before as [| c' before].
      * left. exists after. exact H.
      * right. injection H as _ H. exists before, after. exact H.
Qed.

(** The empty string occurs in every string. *)
Lemma includes_empty (s : string) : Js.includes s "" = true.
Proof. apply includes_true. exists "", s. reflexivity. Qed.

(** The test of the source decides the case-insensitive occurrence. *)
Lemma includes_lower_true (text term : string) :
  Js.includes (Js.toLowerCase text) (Js.toLowerCase term) = true <->
  containsIgnoringCase text term.
Proof.
  rewrite includes_true. unfold containsIgnoringCase, equalIgnoringCase. split.
  - intros (x & y & H).
    destruct (toLowerCase_split _ _ _ H) as (a & r & -> & Ha & Hr).
    destruct (toLowerCase_split _ _ _ Hr) as (b & c & -> & Hb & Hc).
    exists a, b, c. auto.
  - intros (a & b & c & -> & Hb).
    exists (Js.toLowerCase a), (Js.toLowerCase c).
    now rewrite !toLowerCase_append, Hb.
Qed.

End Strings.

(** ** The filter of [App.tsx] *)

Section StableFilterFacts.

Context {A : Type} (P : A -> Prop).

Lemma filter_StableFilter (f : A -> bool) (l : list A) :
  (forall x : A, f x = true <-> P x) ->
  StableFilter P l (Js.array_filter f l).
Proof.
  intros Hf. unfold Js.array_filter.
  induction l as [| x l IH]; simpl.
  - constructor.
  - destruct (f x) eqn:E.
    + apply StableFilter_keep; [now apply Hf | exact IH].
    + apply StableFilter_drop; [| exact IH].
      intros HP. apply Hf in HP. congruence.
Qed.

Lemma StableFilter_unique (l k k' : list A) :
  StableFilter P l k -> StableFilter P l k' -> k = k'.
Proof.
  intros H. revert k'.
  induction H as [| x l k Hx _ IH | x l k Hx _ IH]; intros k' H';
    inversion H'; subst; try contradiction; try reflexivity.
  - f_equal. now apply IH.
  - now apply IH.
Qed.

Lemma StableFilter_In (l k : list A) :
  StableFilter P l k -> forall x : A, In x k <-> In x l /\ P x.
Proof.
  induction 1 as [| y l k Hy _ IH | y l k Hy _ IH]; intros x; simpl.
  - tauto.
  - rewrite IH. split.
    + intros [-> | [H1 H2]]; auto.
    + intros [[-> | H1] H2]; auto.
  - rewrite IH. split.
    + intros [H1 H2]; auto.
    + intros [[-> | H1] H2]; [contradiction | auto].
Qed.

Lemma StableFilter_all (l : list A) : Forall P l -> StableFilter P l l.
Proof. induction 1; constructor; assumption. Qed.

End StableFilterFacts.

Section Filter.

Variables (searchTerm : string) (minMagnitude : float).

Lemma matchesSearch_true (e : Earthquake) :
  matchesSearch searchTerm e = true <->
  exists p : string,
    place (properties e) = Some p /\ containsIgnoringCase p searchTerm.
Proof.
  unfold matchesSearch. destruct (place (properties e)) as [p |].
  - rewrite includes_lower_true. split.
    + intros H. exists p. auto.
    + intros (q & Hq & H). now injection Hq as ->.
  - split; [discriminate | intros (q & Hq & _); discriminate].
Qed.

Lemma matchesMagnitude_true (e : Earthquake) :
  matchesMagnitude minMagnitude e = true <-> atLeast (magnitudeOf e) minMagnitude.
Proof. reflexivity. Qed.

Lemma kept_true (e : Earthquake) :
  matchesSearch searchTerm e && matchesMagnitude minMagnitude e = true <->
  keptBySpec searchTerm minMagnitude e.
Proof.
  unfold keptBySpec.
  now rewrite andb_true_iff, matchesSearch_true, matchesMagnitude_true.
Qed.

Lemma kept_place_present (e : Earthquake) :
  keptBySpec searchTerm minMagnitude e -> placePresent e.
Proof. intros [(p & Hp & _) _]. unfold placePresent. congruence. Qed.

End Filter.

(** With the empty term the search test only asks for a place. *)
Lemma kept_vacuous (e : Earthquake) :
  keptBySpec "" 0 e <-> placePresent e /\ atLeast (magnitudeOf e) 0.
Proof.
  unfold keptBySpec, placePresent. split; intros [H1 H2]; split; auto.
  - destruct H1 as (p & Hp & _). congruence.
  - destruct (place (properties e)) as [p |]; [| congruence].
    exists p. split; [reflexivity |]. exists "", "", p. split; reflexivity.
Qed.

(** *** Case folding and the wording of the spec *)

Section CaseFolding.








End CaseFolding.



(** C4. For a non-empty search term the output never contains an event whose
    place is absent. *)
Theorem filteredEarthquakes_place_present
    (events : list Earthquake) (searchTerm : string) (minMagnitude : float) :
  searchTerm <> "" ->
  Forall placePresent (filteredEarthquakes events searchTerm minMagnitude).
Proof.
  intros _. apply Forall_forall. intros e He.
  apply (StableFilter_In _ _ _
           (filter_StableFilter _ _ events (kept_true searchTerm minMagnitude))) in He.
  exact (kept_place_present _ _ _ (proj2 He)).
Qed.

Lemma filteredEarthquakes_place_present_witness :
  "tokyo" <> "" /\
  Forall placePresent
    (filteredEarthquakes (eventWithoutPlace :: scenario "a" "b" "c" 3 2 1) "tokyo" 3).
Proof.
  split; [discriminate |].
  apply (filteredEarthquakes_place_present
           (eventWithoutPlace :: scenario "a" "b" "c" 3 2 1) "tokyo" 3).
  discriminate.
Defined.

(** C1, as the spec states it, fails: with the empty term and a zero minimum
    an event without a place is still dropped, and so is an event with a
    magnitude below zero. *)
Lemma filteredEarthquakes_vacuous_not_identity :
  filteredEarthquakes [eventWithoutPlace] "" 0 <> [eventWithoutPlace] /\
  filteredEarthquakes [eventBelowZero] "" 0 <> [eventBelowZero].
Proof. split; cbv; discriminate. Qed.

(** C1, amended. With the empty search term and a zero minimum magnitude the
    filter returns, in input order, exactly the events whose place is present
    and whose magnitude, an absent one counting as 0, is at least 0; an
    absent magnitude passes, and a list whose events all have a place and
    such a magnitude is returned as it is. *)
Theorem filteredEarthquakes_vacuous :
  forall events : list Earthquake,
    StableFilter (fun e => placePresent e /\ atLeast (magnitudeOf e) 0) events
      (filteredEarthquakes events "" 0) /\
    (forall e : Earthquake, mag (properties e) = None -> atLeast (magnitudeOf e) 0) /\
    (Forall (fun e => placePresent e /\ atLeast (magnitudeOf e) 0) events ->
     filteredEarthquakes events "" 0 = events).
Proof.
  intros events.
  assert (S : StableFilter (fun e => placePresent e /\ atLeast (magnitudeOf e) 0) events
                (filteredEarthquakes events "" 0)).
  { apply filter_StableFilter. intros e. now rewrite kept_true, kept_vacuous. }
  split; [exact S | split].
  - intros e He. unfold magnitudeOf. rewrite He. reflexivity.
  - intros Hall. symmetry.
    exact (StableFilter_unique _ _ _ _ (StableFilter_all _ _ Hall) S).
Qed.

Lemma filteredEarthquakes_vacuous_witness :
  Forall (fun e => placePresent e /\ atLeast (magnitudeOf e) 0) (scenario "a" "b" "c" 3 2 1) /\
  filteredEarthquakes (scenario "a" "b" "c" 3 2 1) "" 0 = scenario "a" "b" "c" 3 2 1.
Proof.
  assert (H : Forall (fun e => placePresent e /\ atLeast (magnitudeOf e) 0)
                (scenario "a" "b" "c" 3 2 1)).
  { repeat constructor; discriminate. }
  split; [exact H |].
  exact (proj2 (proj2 (filteredEarthquakes_vacuous (scenario "a" "b" "c" 3 2 1))) H).
Defined.

(** C2. On the three events of the scenario (the magnitudes 6.0, 2.0, 4.5
    and the places "Tokyo Bay", "", "Near Tokyo", paired as the explanation
    of the spec pairs them: the 6.0 event has the empty place), the filter
    with the term "tokyo" and the minimum 3 returns exactly one event, the
    one with magnitude 4.5 and place "Near Tokyo"; the 6.0 event fails the
    search test and the 2.0 event fails the magnitude test. *)
Theorem scenario_yields_near_tokyo :
  forall (i1 i2 i3 : string) (t1 t2 t3 : Z),
    filteredEarthquakes (scenarioInContext i1 i2 i3 t1 t2 t3) "tokyo" 3 =
    [ scenarioEvent i3 4.5 "Near Tokyo" t3 ] /\
    matchesSearch "tokyo" (scenarioEvent i1 6.0 "" t1) = false /\
    matchesMagnitude 3 (scenarioEvent i2 2.0 "Tokyo Bay" t2) = false.
Proof. intros. repeat split. Qed.

(** The same two lists read position by position pair 6.0 with "Tokyo Bay"
    and 2.0 with the empty place; on that list the first and the third
    event pass both tests. *)
Remark scenario_position_by_position :
  forall (i1 i2 i3 : string) (t1 t2 t3 : Z),
    filteredEarthquakes (scenario i1 i2 i3 t1 t2 t3) "tokyo" 3 =
    [ scenarioEvent i1 6.0 "Tokyo Bay" t1; scenarioEvent i3 4.5 "Near Tokyo" t3 ].
Proof. intros. reflexivity. Qed.

(** ** Sorting with a comparator *)

Section SortFacts.

Context {A : Type} (cmp : A -> A -> Z).

(** The comparator is consistent about pairs: when it puts [y] before [x]
    it lets [y] stand before [x]. *)
Hypothesis cmp_total : forall x y : A, 0 < cmp x y -> cmp y x <= 0.

Lemma sort_insert_Permutation (x : A) (l : list A) :
  Permutation (x :: l) (Js.sort_insert cmp x l).
Proof.
  induction l as [| y r IH]; simpl.
  - apply Permutation_refl.
  - destruct (cmp x y <=? 0).
    + apply Permutation_refl.
    + apply perm_trans with (y :: x :: r); [apply perm_swap |].
      apply perm_skip. exact IH.
Qed.

Lemma array_sort_Permutation (l : list A) : Permutation l (Js.array_sort cmp l).
Proof.
  induction l as [| x l IH]; simpl.
  - apply perm_nil.
  - apply perm_trans with (x :: Js.array_sort cmp l).
    + apply perm_skip. exact IH.
    + apply sort_insert_Permutation.
Qed.

Lemma sort_insert_HdRel (y x : A) (l : list A) :
  standsBefore cmp y x -> HdRel (standsBefore cmp) y l -> HdRel (standsBefore cmp) y (Js.sort_insert cmp x l).
Proof.
  intros Hyx Hl. destruct l as [| z r]; simpl.
  - constructor. exact Hyx.
  - destruct (cmp x z <=? 0); constructor.
    + exact Hyx.
    + now inversion Hl.
Qed.

Lemma sort_insert_Sorted (x : A) (l : list A) :
  Sorted (standsBefore cmp) l -> Sorted (standsBefore cmp) (Js.sort_insert cmp x l).
Proof.
  induction 1 as [| y r Hr IH Hy]; simpl.
  - repeat constructor.
  - destruct (cmp x y <=? 0) eqn:E.
    + constructor; [constructor; assumption |].
      constructor. unfold standsBefore. lia.
    + constructor; [exact IH |].
      apply sort_insert_HdRel; [| exact Hy].
      apply cmp_total. lia.
Qed.

Lemma array_sort_Sorted (l : list A) : Sorted (standsBefore cmp) (Js.array_sort cmp l).
Proof.
  induction l as [| x l IH]; simpl.
  - constructor.
  - apply sort_insert_Sorted. exact IH.
Qed.

End SortFacts.

(** In a locally sorted list every element and its successor are related. *)
Lemma Sorted_adjacent {A : Type} (R : A -> A -> Prop) (l : list A) :
  Sorted R l ->
  forall (i : nat) (a b : A),
    nth_error l i = Some a -> nth_error l (S i) = Some b -> R a b.
Proof.
  induction 1 as [| x l Hl IH Hx]; intros i a b Ha Hb.
  - destruct i; discriminate.
  - destruct i as [| i].
    + simpl in Ha, Hb. injection Ha as <-.
      destruct l as [| y l]; [discriminate |].
      simpl in Hb. injection Hb as <-. now inversion Hx.
    + exact (IH i a b Ha Hb).
Qed.

(** ** The feed hook *)

Section Hook.

Variables (clock : Z) (s : HookState).

Lemma afterFetch_success (status : Z) (features : list Earthquake) :
  ok status = true ->
  afterFetch (Resolves status (inr features)) clock s =
  {| earthquakes := Js.array_sort byTimeDescending features;
     loading := false; error := None; lastUpdated := Some clock |}.
Proof.
  intros Hok. unfold afterFetch, fetchEarthquakes, try_catch_finally, bind.
  simpl. rewrite Hok. reflexivity.
Qed.

Lemma afterFetch_failure (reply : FetchReply) :
  fetchFails reply ->
  afterFetch reply clock s =
  {| earthquakes := earthquakes s; loading := false;
     error := Some (failureMessage reply); lastUpdated := lastUpdated s |}.
Proof.
  intros Hfail. unfold afterFetch, fetchEarthquakes, try_catch_finally, bind.
  destruct reply as [[message |] | status json]; simpl in *.
  - reflexivity.
  - reflexivity.
  - rewrite Hfail. reflexivity.
Qed.

End Hook.

Lemma byTimeDescending_before (a b : Earthquake) :
  standsBefore byTimeDescending a b <-> timeDescending a b.
Proof. unfold standsBefore, byTimeDescending, timeDescending. lia. Qed.

(** C5. After a successful fetch the events in the store are sorted
    descending by time: they are the decoded events rearranged, the list is
    locally sorted most recent first, and for every pair of adjacent events
    the time of the earlier element is at least the time of the later one. *)
Theorem fetchEarthquakes_sorted_descending
    (s : HookState) (status : Z) (features : list Earthquake) (clock : Z) :
  ok status = true ->
  let s' := afterFetch (Resolves status (inr features)) clock s in
  Permutation features (earthquakes s') /\
  Sorted timeDescending (earthquakes s') /\
  (forall (i : nat) (a b : Earthquake),
      nth_error (earthquakes s') i = Some a ->
      nth_error (earthquakes s') (S i) = Some b ->
      time (properties a) >= time (properties b)) /\
  error s' = None.
Proof.
  intros Hok s'. subst s'. rewrite (afterFetch_success clock s status features Hok).
  cbn [earthquakes error].
  assert (St : Sorted timeDescending (Js.array_sort byTimeDescending features)).
  { eapply Sorted_ind with (P := Sorted timeDescending);
      [constructor | | apply (array_sort_Sorted byTimeDescending)].
    - intros a l _ IH Ha. constructor; [exact IH |].
      destruct Ha; constructor. now apply byTimeDescending_before.
    - unfold byTimeDescending. intros x y. lia. }
  repeat split.
  - apply array_sort_Permutation.
  - exact St.
  - exact (Sorted_adjacent timeDescending _ St).
Qed.

Lemma fetchEarthquakes_sorted_descending_witness :
  ok 200 = true /\
  Sorted timeDescending
    (earthquakes (afterFetch (Resolves 200 (inr (scenario "a" "b" "c" 10 30 20)))
                    1700000000000 initialState)).
Proof.
  split; [reflexivity |].
  exact (proj1 (proj2 (fetchEarthquakes_sorted_descending
                         initialState 200 (scenario "a" "b" "c" 10 30 20)
                         1700000000000 eq_refl))).
Defined.

(** C6. When the fetch fails, by a transport failure or a non-success status,
    the error cell holds a message (the one of the failure) and the stored
    events are the ones stored before the call. *)
Theorem fetchEarthquakes_failure_keeps_batch
    (s : HookState) (reply : FetchReply) (clock : Z) :
  fetchFails reply ->
  let s' := afterFetch reply clock s in
  (exists message : string, error s' = Some message) /\
  error s' = Some (failureMessage reply) /\
  earthquakes s' = earthquakes s.
Proof.
  intros Hfail s'. subst s'. rewrite (afterFetch_failure clock s reply Hfail).
  cbn [earthquakes error]. repeat split. eexists. reflexivity.
Qed.

Lemma fetchEarthquakes_failure_keeps_batch_witness :
  fetchFails (Resolves 503 (inr [])) /\
  error (afterFetch (Resolves 503 (inr [])) 1700000000000
           (afterFetch (Resolves 200 (inr (scenario "a" "b" "c" 10 30 20)))
              1600000000000 initialState))
  = Some "HTTP error! status: 503" /\
  List.length
    (earthquakes (afterFetch (Resolves 503 (inr [])) 1700000000000
                    (afterFetch (Resolves 200 (inr (scenario "a" "b" "c" 10 30 20)))
                       1600000000000 initialState)))
  = 3%nat.
Proof.
  assert (F : fetchFails (Resolves 503 (inr []))) by reflexivity.
  split; [exact F |].
  destruct (fetchEarthquakes_failure_keeps_batch
              (afterFetch (Resolves 200 (inr (scenario "a" "b" "c" 10 30 20)))
                 1600000000000 initialState)
              (Resolves 503 (inr [])) 1700000000000 F) as (_ & Hm & Hb).
  split; [exact Hm |]. rewrite Hb. reflexivity.
Defined.

(** ** Relative age *)

Section Age.

(** The tests of the source on the quotients are tests on the age. *)
Lemma minutes_test (diff : Z) : (diff / (1000 * 60) <? 60) = (diff <? 60 * msPerMinute).
Proof.
  unfold msPerMinute. change (1000 * 60) with 60000.
  destruct (Z.ltb_spec diff (60 * 60000)) as [H | H].
  - apply Z.ltb_lt. apply Z.div_lt_upper_bound; lia.
  - apply Z.ltb_ge. apply Z.div_le_lower_bound; lia.
Qed.

Lemma hours_test (diff : Z) : (diff / (1000 * 60 * 60) <? 24) = (diff <? 24 * msPerHour).
Proof.
  unfold msPerHour. change (1000 * 60 * 60) with 3600000.
  destruct (Z.ltb_spec diff (24 * 3600000)) as [H | H].
  - apply Z.ltb_lt. apply Z.div_lt_upper_bound; lia.
  - apply Z.ltb_ge. apply Z.div_le_lower_bound; lia.
Qed.

Lemma getTimeAgo_relativeAge (now timestamp : Z) :
  getTimeAgo now timestamp = relativeAge (now - timestamp).
Proof.
  unfold getTimeAgo, relativeAge, agePhrase. cbv zeta.
  rewrite minutes_test, hours_test.
  change (1000 * 60 * 60 * 24) with msPerDay.
  change (1000 * 60 * 60) with msPerHour.
  change (1000 * 60) with msPerMinute.
  destruct (now - timestamp <? 60 * msPerMinute);
    [| destruct (now - timestamp <? 24 * msPerHour)];
    match goal with |- context [?q =? 1] => destruct (q =? 1) end; reflexivity.
Qed.

End Age.

(** C9. For a timestamp not later than the current time, [getTimeAgo] gives
    the age in whole minutes when it is under 60 minutes, in whole hours when
    it is under 24 hours and in whole days otherwise, the noun in the
    singular for a count of one and in the plural otherwise; an age of
    90,000 ms gives "1 minute ago" and an age of 7,200,000 ms gives
    "2 hours ago". *)
Theorem getTimeAgo_units (now timestamp : Z) :
  timestamp <= now ->
  let age := now - timestamp in
  getTimeAgo now timestamp = relativeAge age /\
  (age < 60 * msPerMinute ->
   getTimeAgo now timestamp = agePhrase (age / msPerMinute) "minute") /\
  (60 * msPerMinute <= age < 24 * msPerHour ->
   getTimeAgo now timestamp = agePhrase (age / msPerHour) "hour") /\
  (24 * msPerHour <= age ->
   getTimeAgo now timestamp = agePhrase (age / msPerDay) "day") /\
  (forall noun : string, agePhrase 1 noun = "1 " ++ noun ++ " ago") /\
  (forall (count : Z) (noun : string),
      count <> 1 ->
      agePhrase count noun = Js.numberToString count ++ " " ++ noun ++ "s ago") /\
  (age = 90000 -> getTimeAgo now timestamp = "1 minute ago") /\
  (age = 7200000 -> getTimeAgo now timestamp = "2 hours ago").
Proof.
  intros _ age. subst age. rewrite getTimeAgo_relativeAge.
  unfold relativeAge, msPerMinute, msPerHour, msPerDay.
  repeat split.
  - intros H. apply Z.ltb_lt in H. now rewrite H.
  - intros [H1 H2]. apply Z.ltb_ge in H1. apply Z.ltb_lt in H2. now rewrite H1, H2.
  - intros H.
    assert (H1 : 60 * 60000 <= now - timestamp) by lia.
    apply Z.ltb_ge in H1. apply Z.ltb_ge in H. now rewrite H1, H.
  - intros count noun Hc. unfold agePhrase.
    apply Z.eqb_neq in Hc. now rewrite Hc.
  - intros ->. reflexivity.
  - intros ->. reflexivity.
Qed.

Lemma getTimeAgo_units_witness :
  1700000000000 - 90000 <= 1700000000000 /\
  getTimeAgo 1700000000000 (1700000000000 - 90000) = "1 minute ago".
Proof.
  split; [lia |].
  apply (getTimeAgo_units 1700000000000 (1700000000000 - 90000)); [lia | reflexivity].
Defined.

(** C10. For an age that is non-negative and below 60,000 ms, [getTimeAgo]
    returns exactly "0 minutes ago". *)
Theorem getTimeAgo_under_a_minute (now timestamp : Z) :
  0 <= now - timestamp < 60000 ->
  getTimeAgo now timestamp = "0 minutes ago".
Proof.
  intros H. unfold getTimeAgo. cbv zeta.
  change (1000 * 60) with 60000.
  rewrite (Z.div_small (now - timestamp) 60000 H). reflexivity.
Qed.

Lemma getTimeAgo_under_a_minute_witness :
  0 <= 1700000000000 - 1699999940001 < 60000 /\
  getTimeAgo 1700000000000 1699999940001 = "0 minutes ago".
Proof.
  split; [lia |].
  apply (getTimeAgo_under_a_minute 1700000000000 1699999940001). lia.
Defined.

(* ================================================================= *)
(** * Further properties of the filter *)

Section FilterAlgebra.

Context {A : Type}.

Lemma filter_narrowing (f g : A -> bool) (l : list A) :
  (forall x : A, g x = true -> f x = true) ->
  Js.array_filter g (Js.array_filter f l) = Js.array_filter g l.
Proof.
  intros Himp. unfold Js.array_filter.
  induction l as [| x l IH]; simpl; [reflexivity |].
  destruct (f x) eqn:Ef; simpl.
  - now rewrite IH.
  - destruct (g x) eqn:Eg; [| exact IH].
    apply Himp in Eg. congruence.
Qed.

Lemma filter_In_narrowing (f g : A -> bool) (l : list A) :
  (forall x : A, g x = true -> f x = true) ->
  forall x : A, In x (Js.array_filter g l) -> In x (Js.array_filter f l).
Proof.
  intros Himp x. unfold Js.array_filter. rewrite !filter_In.
  intros [H1 H2]. auto.
Qed.

Lemma filter_commutes (f g : A -> bool) (l : list A) :
  Js.array_filter g (Js.array_filter f l) = Js.array_filter f (Js.array_filter g l).
Proof.
  unfold Js.array_filter.
  induction l as [| x l IH]; simpl; [reflexivity |].
  destruct (f x) eqn:Ef, (g x) eqn:Eg; simpl; rewrite ?Ef, ?Eg, IH; reflexivity.
Qed.

End FilterAlgebra.

(** A term that is typed inside a longer term occurs wherever the longer
    term occurs. *)
Lemma includes_inner (s a t b : string) :
  Js.includes s (a ++ t ++ b) = true -> Js.includes s t = true.
Proof.
  rewrite !includes_true. intros (x & y & ->).
  exists (x ++ a), (b ++ y). now rewrite !append_assoc.
Qed.

Lemma matchesSearch_inner (a t b : string) (e : Earthquake) :
  matchesSearch (a ++ t ++ b) e = true -> matchesSearch t e = true.
Proof.
  unfold matchesSearch. destruct (place (properties e)) as [p |]; [| discriminate].
  rewrite !toLowerCase_append. apply includes_inner.
Qed.

Lemma matchesMagnitude_lower (m1 m2 : float) (e : Earthquake) :
  (m1 <=? m2)%float = true ->
  matchesMagnitude m2 e = true -> matchesMagnitude m1 e = true.
Proof. unfold matchesMagnitude, Js.ge. apply leb_trans. Qed.

(** X1. Filtering is idempotent and the order of two filters does not
    matter: filtering the output again with the same term and minimum
    changes nothing, and filtering by one pair of settings and then by
    another gives the same list as in the opposite order. *)
Theorem filteredEarthquakes_idempotent_commutes :
  forall (events : list Earthquake) (s1 s2 : string) (m1 m2 : float),
    filteredEarthquakes (filteredEarthquakes events s1 m1) s1 m1 =
    filteredEarthquakes events s1 m1 /\
    filteredEarthquakes (filteredEarthquakes events s1 m1) s2 m2 =
    filteredEarthquakes (filteredEarthquakes events s2 m2) s1 m1.
Proof.
  intros events s1 s2 m1 m2. unfold filteredEarthquakes. split.
  - apply filter_narrowing. auto.
  - apply filter_commutes.
Qed.

(** X2. Raising the minimum magnitude only removes events: when
    [m1 <= m2], every event shown for [m2] is shown for [m1], and the list
    for [m2] is the list for [m1] filtered again with [m2]. *)
Theorem filteredEarthquakes_minimum_monotone
    (events : list Earthquake) (searchTerm : string) (m1 m2 : float) :
  (m1 <=? m2)%float = true ->
  filteredEarthquakes (filteredEarthquakes events searchTerm m1) searchTerm m2 =
  filteredEarthquakes events searchTerm m2 /\
  (forall e : Earthquake,
      In e (filteredEarthquakes events searchTerm m2) ->
      In e (filteredEarthquakes events searchTerm m1)).
Proof.
  intros Hle.
  assert (Himp : forall e : Earthquake,
             matchesSearch searchTerm e && matchesMagnitude m2 e = true ->
             matchesSearch searchTerm e && matchesMagnitude m1 e = true).
  { intros e. rewrite !andb_true_iff. intros [H1 H2].
    split; [exact H1 | exact (matchesMagnitude_lower m1 m2 e Hle H2)]. }
  unfold filteredEarthquakes. split.
  - apply filter_narrowing. exact Himp.
  - apply filter_In_narrowing. exact Himp.
Qed.

Lemma filteredEarthquakes_minimum_monotone_witness :
  (3 <=? 5)%float = true /\
  filteredEarthquakes (filteredEarthquakes (scenario "a" "b" "c" 3 2 1) "tokyo" 3) "tokyo" 5 =
  filteredEarthquakes (scenario "a" "b" "c" 3 2 1) "tokyo" 5.
Proof.
  split; [reflexivity |].
  exact (proj1 (filteredEarthquakes_minimum_monotone
                  (scenario "a" "b" "c" 3 2 1) "tokyo" 3 5 eq_refl)).
Defined.

(** X3. On ASCII texts, typing more characters only removes events: when
    the places and the parts of the term are ASCII and the term [t] is part
    of the term [a ++ t ++ b], every event shown for the longer term is
    shown for [t], and the list for the longer term is the list for [t]
    filtered again with the longer term. *)
Theorem filteredEarthquakes_longer_term_narrows
    (events : list Earthquake) (a t b : string) (minMagnitude : float) :
  asciiText a -> asciiText t -> asciiText b ->
  Forall asciiPlace events ->
  filteredEarthquakes (filteredEarthquakes events t minMagnitude)
    (a ++ t ++ b) minMagnitude =
  filteredEarthquakes events (a ++ t ++ b) minMagnitude /\
  (forall e : Earthquake,
      In e (filteredEarthquakes events (a ++ t ++ b) minMagnitude) ->
      In e (filteredEarthquakes events t minMagnitude)).
Proof.
  intros _ _ _ _.
  assert (Himp : forall e : Earthquake,
             matchesSearch (a ++ t ++ b) e && matchesMagnitude minMagnitude e = true ->
             matchesSearch t e && matchesMagnitude minMagnitude e = true).
  { intros e. rewrite !andb_true_iff. intros [H1 H2].
    split; [exact (matchesSearch_inner a t b e H1) | exact H2]. }
  unfold filteredEarthquakes. split.
  - apply filter_narrowing. exact Himp.
  - apply filter_In_narrowing. exact Himp.
Qed.

Lemma filteredEarthquakes_longer_term_narrows_witness :
  asciiText "near " /\ asciiText "Tok" /\ asciiText "yo" /\
  Forall asciiPlace (scenario "a" "b" "c" 3 2 1) /\
  filteredEarthquakes (filteredEarthquakes (scenario "a" "b" "c" 3 2 1) "Tok" 3)
    ("near " ++ "Tok" ++ "yo") 3 =
  filteredEarthquakes (scenario "a" "b" "c" 3 2 1) ("near " ++ "Tok" ++ "yo") 3.
Proof.
  assert (A : asciiText "near ") by (cbv; repeat split).
  assert (T : asciiText "Tok") by (cbv; repeat split).
  assert (B : asciiText "yo") by (cbv; repeat split).
  assert (P : Forall asciiPlace (scenario "a" "b" "c" 3 2 1))
    by (repeat constructor; cbv; repeat split).
  split; [exact A | split; [exact T | split; [exact B | split; [exact P |]]]].
  exact (proj1 (filteredEarthquakes_longer_term_narrows
                  (scenario "a" "b" "c" 3 2 1) "near " "Tok" "yo" 3 A T B P)).
Defined.

(* ================================================================= *)
(** * Further properties of the feed hook *)

Section HookFacts.

Lemma timeDescending_trans (a b c : Earthquake) :
  timeDescending a b -> timeDescending b c -> timeDescending a c.
Proof. unfold timeDescending. lia. Qed.

Lemma array_sort_timeDescending (l : list Earthquake) :
  Sorted timeDescending (Js.array_sort byTimeDescending l).
Proof.
  assert (S : Sorted (standsBefore byTimeDescending) (Js.array_sort byTimeDescending l)).
  { apply array_sort_Sorted. unfold byTimeDescending. intros x y. lia. }
  induction S as [| a k _ IH Ha]; constructor; [exact IH |].
  destruct Ha; constructor. now apply byTimeDescending_before.
Qed.

(** A filter keeps a list sorted by a transitive order sorted. *)
Lemma filter_Sorted {A : Type} (R : A -> A -> Prop) (f : A -> bool) (l : list A) :
  (forall a b c : A, R a b -> R b c -> R a c) ->
  Sorted R l -> Sorted R (Js.array_filter f l).
Proof.
  intros Htrans S. apply StronglySorted_Sorted.
  apply Sorted_StronglySorted in S; [| exact Htrans].
  unfold Js.array_filter.
  induction S as [| a l _ IH Ha]; simpl; [constructor |].
  destruct (f a); [| exact IH].
  constructor; [exact IH |].
  apply Forall_forall. intros x Hx. apply filter_In in Hx.
  exact (proj1 (Forall_forall _ _) Ha x (proj1 Hx)).
Qed.

(** Inserting [x] passes only events that are strictly more recent, so the
    events of any one timestamp keep their order. *)
Lemma atTime_sort_insert (t : Z) (x : Earthquake) (l : list Earthquake) :
  atTime t (Js.sort_insert byTimeDescending x l) = atTime t (x :: l).
Proof.
  unfold atTime. induction l as [| y r IH]; [reflexivity |].
  cbn [Js.sort_insert]. destruct (Z.leb_spec (byTimeDescending x y) 0) as [H | H].
  - reflexivity.
  - cbn [List.filter] in *. rewrite IH. unfold byTimeDescending in H.
    destruct (Z.eqb_spec (time (properties x)) t) as [Hx | Hx];
      destruct (Z.eqb_spec (time (properties y)) t) as [Hy | Hy];
      try reflexivity.
    lia.
Qed.

Lemma atTime_array_sort (t : Z) (l : list Earthquake) :
  atTime t (Js.array_sort byTimeDescending l) = atTime t l.
Proof.
  induction l as [| x l IH]; [reflexivity |].
  cbn [Js.array_sort fold_right]. rewrite atTime_sort_insert.
  unfold atTime in *. cbn [List.filter]. fold (Js.array_sort byTimeDescending l).
  now rewrite IH.
Qed.

Lemma array_sort_sorted_id (l : list Earthquake) :
  Sorted timeDescending l -> Js.array_sort byTimeDescending l = l.
Proof.
  induction 1 as [| x l _ IH Hx]; [reflexivity |].
  cbn [Js.array_sort fold_right]. fold (Js.array_sort byTimeDescending l). rewrite IH.
  destruct Hx as [| y r Hxy]; [reflexivity |].
  cbn [Js.sort_insert]. apply byTimeDescending_before in Hxy.
  unfold standsBefore in Hxy. apply Z.leb_le in Hxy. now rewrite Hxy.
Qed.

Lemma afterFetch_decode_failure (clock : Z) (s : HookState) (status : Z) (e : Js.Thrown) :
  ok status = true ->
  afterFetch (Resolves status (inl e)) clock s =
  {| earthquakes := earthquakes s; loading := false;
     error := Some match e with
                   | Js.ErrorObject message => message
                   | Js.OtherValue => "Failed to fetch earthquake data"
                   end;
     lastUpdated := lastUpdated s |}.
Proof.
  intros Hok. unfold afterFetch, fetchEarthquakes, try_catch_finally, bind.
  simpl. rewrite Hok. reflexivity.
Qed.

End HookFacts.

(** X4. The displayed list keeps the order of the store: after a successful
    fetch the filtered list is sorted most recent first, whatever the term
    and the minimum. *)
Theorem filtered_after_fetch_sorted
    (s : HookState) (status : Z) (features : list Earthquake) (clock : Z)
    (searchTerm : string) (minMagnitude : float) :
  ok status = true ->
  Sorted timeDescending
    (filteredEarthquakes
       (earthquakes (afterFetch (Resolves status (inr features)) clock s))
       searchTerm minMagnitude).
Proof.
  intros Hok. rewrite (afterFetch_success clock s status features Hok).
  cbn [earthquakes]. unfold filteredEarthquakes.
  apply filter_Sorted; [exact timeDescending_trans | apply array_sort_timeDescending].
Qed.

Lemma filtered_after_fetch_sorted_witness :
  ok 200 = true /\
  Sorted timeDescending
    (filteredEarthquakes
       (earthquakes (afterFetch (Resolves 200 (inr (scenario "a" "b" "c" 10 30 20)))
                       1700000000000 initialState))
       "tokyo" 3).
Proof.
  split; [reflexivity |].
  exact (filtered_after_fetch_sorted initialState 200 (scenario "a" "b" "c" 10 30 20)
           1700000000000 "tokyo" 3 eq_refl).
Defined.

(** X5. Whatever the network answers, a call ends with the loading flag
    off; the error cell is empty exactly after a full success (success
    status and decodable body); the time of the last update is the clock
    reading after a full success and is left as it was otherwise. *)
Theorem afterFetch_cells :
  forall (reply : FetchReply) (clock : Z) (s : HookState),
    loading (afterFetch reply clock s) = false /\
    (error (afterFetch reply clock s) = None <-> fetchSucceeds reply) /\
    (fetchSucceeds reply -> lastUpdated (afterFetch reply clock s) = Some clock) /\
    (~ fetchSucceeds reply ->
     lastUpdated (afterFetch reply clock s) = lastUpdated s /\
     earthquakes (afterFetch reply clock s) = earthquakes s).
Proof.
  intros reply clock s.
  destruct reply as [reason | status [e | features]].
  - rewrite (afterFetch_failure clock s (Rejects reason) I). simpl.
    repeat split; try tauto; discriminate.
  - destruct (ok status) eqn:Hok.
    + rewrite (afterFetch_decode_failure clock s status e Hok). simpl.
      repeat split; try tauto; discriminate.
    + rewrite (afterFetch_failure clock s (Resolves status (inl e)) Hok). simpl.
      repeat split; try tauto; discriminate.
  - destruct (ok status) eqn:Hok.
    + rewrite (afterFetch_success clock s status features Hok). simpl.
      rewrite Hok. repeat split; try tauto.
    + rewrite (afterFetch_failure clock s (Resolves status (inr features)) Hok). simpl.
      rewrite Hok. repeat split; try tauto; discriminate.
Qed.

(** X6. A response with a success status whose body does not decode is
    handled as a failure: the error cell holds the message of the thrown
    [Error] (the fallback text for any other thrown value), and the stored
    events and the time of the last update are left as they were. *)
Theorem afterFetch_undecodable_body
    (s : HookState) (status : Z) (e : Js.Thrown) (clock : Z) :
  ok status = true ->
  error (afterFetch (Resolves status (inl e)) clock s) =
    Some match e with
         | Js.ErrorObject message => message
         | Js.OtherValue => "Failed to fetch earthquake data"
         end /\
  earthquakes (afterFetch (Resolves status (inl e)) clock s) = earthquakes s /\
  lastUpdated (afterFetch (Resolves status (inl e)) clock s) = lastUpdated s.
Proof.
  intros Hok. rewrite (afterFetch_decode_failure clock s status e Hok).
  repeat split.
Qed.

Lemma afterFetch_undecodable_body_witness :
  ok 200 = true /\
  error (afterFetch (Resolves 200 (inl (Js.ErrorObject "Unexpected token < in JSON")))
           1700000000000 initialState)
  = Some "Unexpected token < in JSON".
Proof.
  split; [reflexivity |].
  exact (proj1 (afterFetch_undecodable_body initialState 200
                  (Js.ErrorObject "Unexpected token < in JSON") 1700000000000 eq_refl)).
Defined.

(** X7. The sort of the hook is stable: after a successful fetch the events
    of any one timestamp are in the store in the order the feed gave them. *)
Theorem fetchEarthquakes_stable
    (s : HookState) (status : Z) (features : list Earthquake) (clock : Z) (t : Z) :
  ok status = true ->
  atTime t (earthquakes (afterFetch (Resolves status (inr features)) clock s)) =
  atTime t features.
Proof.
  intros Hok. rewrite (afterFetch_success clock s status features Hok).
  cbn [earthquakes]. apply atTime_array_sort.
Qed.

Lemma fetchEarthquakes_stable_witness :
  ok 200 = true /\
  atTime 7 (earthquakes (afterFetch (Resolves 200 (inr (scenario "a" "b" "c" 7 9 7)))
                           1700000000000 initialState)) =
  atTime 7 (scenario "a" "b" "c" 7 9 7).
Proof.
  split; [reflexivity |].
  exact (fetchEarthquakes_stable initialState 200 (scenario "a" "b" "c" 7 9 7)
           1700000000000 7 eq_refl).
Defined.

(** X8. A feed that is already most recent first is stored as it is. *)
Theorem fetchEarthquakes_sorted_feed_unchanged
    (s : HookState) (status : Z) (features : list Earthquake) (clock : Z) :
  ok status = true ->
  Sorted timeDescending features ->
  earthquakes (afterFetch (Resolves status (inr features)) clock s) = features.
Proof.
  intros Hok Hs. rewrite (afterFetch_success clock s status features Hok).
  cbn [earthquakes]. now apply array_sort_sorted_id.
Qed.

Lemma fetchEarthquakes_sorted_feed_unchanged_witness :
  ok 200 = true /\
  Sorted timeDescending (scenario "a" "b" "c" 30 20 20) /\
  earthquakes (afterFetch (Resolves 200 (inr (scenario "a" "b" "c" 30 20 20)))
                 1700000000000 initialState) =
  scenario "a" "b" "c" 30 20 20.
Proof.
  assert (S : Sorted timeDescending (scenario "a" "b" "c" 30 20 20)).
  { repeat constructor; unfold timeDescending; simpl; lia. }
  split; [reflexivity | split; [exact S |]].
  exact (fetchEarthquakes_sorted_feed_unchanged initialState 200
           (scenario "a" "b" "c" 30 20 20) 1700000000000 eq_refl S).
Defined.

(* ================================================================= *)
(** * Further properties of the relative age and of the recent flag *)

Lemma numberToString_negative (n : Z) :
  n < 0 -> exists digits : string, Js.numberToString n = "-" ++ digits.
Proof.
  intros H. destruct n as [| p | p]; try lia.
  eexists. reflexivity.
Qed.

(** X9. A timestamp in the future (a clock that runs behind the feed) is
    shown in minutes with a negative count, never in hours or days: the text
    is the count [floor (age / 60000) <= -1], which starts with a minus
    sign, followed by " minutes ago". *)
Theorem getTimeAgo_future (now timestamp : Z) :
  now < timestamp ->
  (now - timestamp) / 60000 <= -1 /\
  getTimeAgo now timestamp =
    Js.numberToString ((now - timestamp) / 60000) ++ " minutes ago" /\
  exists digits : string,
    getTimeAgo now timestamp = "-" ++ digits ++ " minutes ago".
Proof.
  intros H.
  assert (Hq : (now - timestamp) / 60000 <= -1).
  { assert ((now - timestamp) / 60000 < 0) by (apply Z.div_lt_upper_bound; lia). lia. }
  assert (E : getTimeAgo now timestamp =
              Js.numberToString ((now - timestamp) / 60000) ++ " minutes ago").
  { unfold getTimeAgo. cbv zeta. change (1000 * 60) with 60000.
    destruct (Z.ltb_spec ((now - timestamp) / 60000) 60) as [_ | H60]; [| lia].
    destruct (Z.eqb_spec ((now - timestamp) / 60000) 1) as [H1 | _]; [lia |].
    reflexivity. }
  split; [exact Hq | split; [exact E |]].
  destruct (numberToString_negative ((now - timestamp) / 60000)) as [digits Hd]; [lia |].
  exists digits. rewrite E, Hd. reflexivity.
Qed.

Lemma getTimeAgo_future_witness :
  1700000000000 < 1700000000001 /\
  getTimeAgo 1700000000000 1700000000001 = "-1 minutes ago".
Proof.
  split; [lia |].
  exact (proj1 (proj2 (getTimeAgo_future 1700000000000 1700000000001 eq_refl))).
Defined.

(** X10. For a timestamp that is not in the future the count that is shown
    is in the range of its unit: 0 to 59 minutes, 1 to 23 hours, or at least
    1 day; "0 hours ago" and "0 days ago" are never shown. *)
Theorem getTimeAgo_count_ranges (now timestamp : Z) :
  timestamp <= now ->
  (exists n : Z, 0 <= n <= 59 /\ getTimeAgo now timestamp = agePhrase n "minute") \/
  (exists n : Z, 1 <= n <= 23 /\ getTimeAgo now timestamp = agePhrase n "hour") \/
  (exists n : Z, 1 <= n /\ getTimeAgo now timestamp = agePhrase n "day").
Proof.
  intros H. rewrite getTimeAgo_relativeAge.
  unfold relativeAge, msPerMinute, msPerHour, msPerDay.
  set (age := now - timestamp). assert (Hage : 0 <= age) by (subst age; lia).
  destruct (Z.ltb_spec age (60 * 60000)) as [Hm | Hm].
  - left. exists (age / 60000). split; [| reflexivity]. split.
    + apply Z.div_pos; lia.
    + assert (age / 60000 < 60) by (apply Z.div_lt_upper_bound; lia). lia.
  - destruct (Z.ltb_spec age (24 * 3600000)) as [Hh | Hh].
    + right. left. exists (age / 3600000). split; [| reflexivity]. split.
      * apply Z.div_le_lower_bound; lia.
      * assert (age / 3600000 < 24) by (apply Z.div_lt_upper_bound; lia). lia.
    + right. right. exists (age / 86400000). split; [| reflexivity].
      apply Z.div_le_lower_bound; lia.
Qed.

Lemma getTimeAgo_count_ranges_witness :
  1700000000000 - 3600000 <= 1700000000000 /\
  ((exists n : Z, 0 <= n <= 59 /\
      getTimeAgo 1700000000000 (1700000000000 - 3600000) = agePhrase n "minute") \/
   (exists n : Z, 1 <= n <= 23 /\
      getTimeAgo 1700000000000 (1700000000000 - 3600000) = agePhrase n "hour") \/
   (exists n : Z, 1 <= n /\
      getTimeAgo 1700000000000 (1700000000000 - 3600000) = agePhrase n "day")).
Proof.
  split; [lia |].
  apply (getTimeAgo_count_ranges 1700000000000 (1700000000000 - 3600000)). lia.
Defined.

(** X11. At one clock reading the recent flag of the cards and markers, the
    recent list of the map and the unit of the relative age agree: the
    recent list is the list of the flagged events, in order; a flagged event
    has its age shown in minutes, and an event that is not flagged has it
    shown in hours or days. *)
Theorem recent_flag_consistent :
  forall (now : Z) (events : list Earthquake),
    getRecentEarthquakes now events = List.filter (isRecent now) events /\
    (forall e : Earthquake,
        isRecent now e = true ->
        getTimeAgo now (time (properties e)) =
        agePhrase ((now - time (properties e)) / msPerMinute) "minute") /\
    (forall e : Earthquake,
        isRecent now e = false ->
        getTimeAgo now (time (properties e)) =
          agePhrase ((now - time (properties e)) / msPerHour) "hour" \/
        getTimeAgo now (time (properties e)) =
          agePhrase ((now - time (properties e)) / msPerDay) "day").
Proof.
  intros now events. split; [| split].
  - unfold getRecentEarthquakes, Js.array_filter. cbv zeta.
    apply filter_ext. intros e. unfold isRecent.
    destruct (Z.gtb_spec (time (properties e)) (now - 3600000));
      destruct (Z.ltb_spec (now - time (properties e)) 3600000); reflexivity || lia.
  - intros e He. rewrite getTimeAgo_relativeAge. unfold relativeAge, isRecent in *.
    change (60 * msPerMinute) with 3600000. now rewrite He.
  - intros e He. rewrite getTimeAgo_relativeAge. unfold relativeAge, isRecent in *.
    change (60 * msPerMinute) with 3600000. rewrite He.
    destruct (now - time (properties e) <? 24 * msPerHour); auto.
Qed.

(* ================================================================= *)
(** * Further properties of the magnitude displays *)

Section FloatFacts.

Lemma SFeqb_refl (x : spec_float) : x <> S754_nan -> SFeqb x x = true.
Proof.
  intros Hx. unfold SFeqb.
  destruct x as [s | s | | s m e]; try congruence; simpl.
  - reflexivity.
  - destruct s; reflexivity.
  - change (Pos.compare_cont Eq m m) with (Pos.compare m m).
    destruct s; rewrite Z.compare_refl, Pos.compare_refl; reflexivity.
Qed.

Lemma is_nan_false (x : float) :
  PrimFloat.is_nan x = false <-> Prim2SF x <> S754_nan.
Proof.
  unfold PrimFloat.is_nan. rewrite FloatAxioms.eqb_spec. split.
  - intros H Hn. rewrite Hn in H. discriminate.
  - intros H. now rewrite (SFeqb_refl _ H).
Qed.

Lemma is_nan_true (x : float) :
  PrimFloat.is_nan x = true <-> Prim2SF x = S754_nan.
Proof.
  destruct (nan_dec x) as [H | H].
  - split; [auto |]. intros _. unfold PrimFloat.is_nan.
    rewrite FloatAxioms.eqb_spec, H. reflexivity.
  - rewrite (proj2 (is_nan_false x) H). split; [discriminate | congruence].
Qed.

Lemma leb_refl (x : float) : PrimFloat.is_nan x = false -> (x <=? x)%float = true.
Proof.
  intros H. apply is_nan_false in H. rewrite leb_spec.
  pose proof (SFeqb_refl _ H) as E. unfold SFeqb, SFleb in *.
  destruct (SFcompare (Prim2SF x) (Prim2SF x)) as [[| |] |]; congruence.
Qed.

Lemma ltb_leb (x y : float) : (x <? y)%float = true -> (x <=? y)%float = true.
Proof.
  rewrite ltb_spec, leb_spec. unfold SFltb, SFleb.
  destruct (SFcompare (Prim2SF x) (Prim2SF y)) as [[| |] |]; congruence.
Qed.

Lemma not_ltb_leb (x y : float) :
  PrimFloat.is_nan x = false -> PrimFloat.is_nan y = false ->
  (x <? y)%float = false -> (y <=? x)%float = true.
Proof.
  intros Hx Hy H. apply is_nan_false in Hx, Hy.
  rewrite (ltb_negb_leb x y Hx Hy) in H. now apply negb_false_iff in H.
Qed.


Lemma positiveZero_spec (x : float) :
  JsNum.isPositiveZero x = true -> Prim2SF x = S754_zero false.
Proof.
  unfold JsNum.isPositiveZero. rewrite classify_spec.
  unfold SF64classify, SFclassify.
  destruct (Prim2SF x) as [[|] | [|] | | [|] m e]; try discriminate; try reflexivity;
    destruct (Z.eqb _ _); discriminate.
Qed.

Lemma negativeZero_spec (x : float) :
  JsNum.isNegativeZero x = true -> Prim2SF x = S754_zero true.
Proof.
  unfold JsNum.isNegativeZero. rewrite classify_spec.
  unfold SF64classify, SFclassify.
  destruct (Prim2SF x) as [[|] | [|] | | [|] m e]; try discriminate; try reflexivity;
    destruct (Z.eqb _ _); discriminate.
Qed.

Lemma zeros_leb (x y : float) :
  JsNum.isPositiveZero x = true -> JsNum.isNegativeZero y = true ->
  (y <=? x)%float = true /\ (x <=? y)%float = true.
Proof.
  intros Hx Hy. apply positiveZero_spec in Hx. apply negativeZero_spec in Hy.
  rewrite !leb_spec, Hx, Hy. split; reflexivity.
Qed.

End FloatFacts.

Section MaxMin.

Lemma max_step_spec (h x : float) :
  notNaN h -> notNaN x ->
  (JsNum.max_step h x = h \/ JsNum.max_step h x = x) /\
  notNaN (JsNum.max_step h x) /\
  (h <=? JsNum.max_step h x)%float = true /\
  (x <=? JsNum.max_step h x)%float = true.
Proof.
  unfold notNaN. intros Hh Hx. unfold JsNum.max_step. rewrite Hx.
  destruct (JsNum.isPositiveZero x && JsNum.isNegativeZero h) eqn:Z.
  - apply andb_true_iff in Z. destruct Z as [Zx Zh].
    destruct (zeros_leb x h Zx Zh) as [L _].
    split; [right; reflexivity |]. split; [exact Hx |].
    split; [exact L | exact (leb_refl x Hx)].
  - destruct (h <? x)%float eqn:L.
    + split; [right; reflexivity |]. split; [exact Hx |].
      split; [exact (ltb_leb h x L) | exact (leb_refl x Hx)].
    + split; [left; reflexivity |]. split; [exact Hh |].
      split; [exact (leb_refl h Hh) | exact (not_ltb_leb h x Hh Hx L)].
Qed.

Lemma min_step_spec (l x : float) :
  notNaN l -> notNaN x ->
  (JsNum.min_step l x = l \/ JsNum.min_step l x = x) /\
  notNaN (JsNum.min_step l x) /\
  (JsNum.min_step l x <=? l)%float = true /\
  (JsNum.min_step l x <=? x)%float = true.
Proof.
  unfold notNaN. intros Hl Hx. unfold JsNum.min_step. rewrite Hx.
  destruct (JsNum.isNegativeZero x && JsNum.isPositiveZero l) eqn:Z.
  - apply andb_true_iff in Z. destruct Z as [Zx Zl].
    destruct (zeros_leb l x Zl Zx) as [L _].
    split; [right; reflexivity |]. split; [exact Hx |].
    split; [exact L | exact (leb_refl x Hx)].
  - destruct (x <? l)%float eqn:L.
    + split; [right; reflexivity |]. split; [exact Hx |].
      split; [exact (ltb_leb x l L) | exact (leb_refl x Hx)].
    + split; [left; reflexivity |]. split; [exact Hl |].
      split; [exact (leb_refl l Hl) | exact (not_ltb_leb x l Hx Hl L)].
Qed.

Lemma fold_max_spec (l : list float) :
  forall h : float,
    notNaN h -> Forall notNaN l ->
    notNaN (fold_left JsNum.max_step l h) /\
    (h <=? fold_left JsNum.max_step l h)%float = true /\
    (forall x : float, In x l -> (x <=? fold_left JsNum.max_step l h)%float = true) /\
    (fold_left JsNum.max_step l h = h \/ In (fold_left JsNum.max_step l h) l).
Proof.
  induction l as [| y l IH]; intros h Hh Hl; simpl.
  - split; [exact Hh |]. split; [exact (leb_refl h Hh) |].
    split; [intros x [] | left; reflexivity].
  - inversion Hl as [| ? ? Hy Hl']; subst.
    destruct (max_step_spec h y Hh Hy) as (Hcase & Hn & Hhs & Hys).
    destruct (IH (JsNum.max_step h y) Hn Hl') as (Rn & Rh & Rall & Rin).
    split; [exact Rn |]. split; [exact (leb_trans _ _ _ Hhs Rh) |]. split.
    + intros x [<- | Hx]; [exact (leb_trans _ _ _ Hys Rh) | exact (Rall x Hx)].
    + destruct Rin as [Req | Rin]; [| auto].
      rewrite Req. destruct Hcase as [-> | ->]; auto.
Qed.

Lemma leb_neg_infinity (x : float) :
  (x <=? neg_infinity)%float = true -> x = neg_infinity.
Proof.
  rewrite leb_spec. intros H.
  assert (E : Prim2SF x = Prim2SF neg_infinity).
  { change (Prim2SF neg_infinity) with (S754_infinity true) in *.
    unfold SFleb in H.
    destruct (Prim2SF x) as [[|] | [|] | | [|] m e]; simpl in H;
      try discriminate; reflexivity. }
  rewrite <- (SF2Prim_Prim2SF x), E. apply SF2Prim_Prim2SF.
Qed.

Lemma mathMax_spec (l : list float) :
  Forall notNaN l ->
  notNaN (JsNum.mathMax l) /\
  (forall x : float, In x l -> (x <=? JsNum.mathMax l)%float = true) /\
  (l <> [] -> In (JsNum.mathMax l) l).
Proof.
  intros Hl. unfold JsNum.mathMax.
  destruct (fold_max_spec l neg_infinity eq_refl Hl) as (Rn & _ & Rall & Rin).
  split; [exact Rn |]. split; [exact Rall |].
  intros Hne. destruct Rin as [Req | Rin]; [| exact Rin].
  destruct l as [| y l]; [congruence |].
  pose proof (Rall y (or_introl eq_refl)) as Hy. rewrite Req in Hy.
  apply leb_neg_infinity in Hy. rewrite Req, <- Hy. left. reflexivity.
Qed.

Lemma orZero_notNaN (v : option float) : notNaN (JsNum.orZero v).
Proof.
  unfold notNaN, JsNum.orZero. destruct v as [x |]; [| reflexivity].
  destruct (JsNum.truthy x) eqn:T; [| reflexivity].
  unfold JsNum.truthy in T. apply negb_true_iff, orb_false_iff in T. tauto.
Qed.

End MaxMin.

(** X12. The "Highest Mag" number is never NaN; it is at least the magnitude
    of every event (an absent, zero or NaN magnitude counting as 0); for a
    non-empty list it is the magnitude of one of the events, and for the
    empty list it is [-Infinity]. *)
Theorem highestMagnitude_is_maximum :
  forall events : list Earthquake,
    notNaN (highestMagnitude events) /\
    (forall e : Earthquake,
        In e events ->
        (JsNum.orZero (mag (properties e)) <=? highestMagnitude events)%float = true) /\
    (events <> [] ->
     exists e : Earthquake,
       In e events /\ highestMagnitude events = JsNum.orZero (mag (properties e))) /\
    highestMagnitude [] = neg_infinity.
Proof.
  intros events. unfold highestMagnitude.
  set (values := List.map (fun eq => JsNum.orZero (mag (properties eq))) events).
  assert (Hv : Forall notNaN values).
  { apply Forall_forall. intros x Hx. apply in_map_iff in Hx.
    destruct Hx as (e & <- & _). apply orZero_notNaN. }
  destruct (mathMax_spec values Hv) as (Hn & Hall & Hin).
  split; [exact Hn |]. split; [| split; [| reflexivity]].
  - intros e He. apply Hall. subst values.
    apply in_map_iff. exists e. auto.
  - intros Hne.
    assert (Hvne : values <> []).
    { subst values. destruct events; [congruence | discriminate]. }
    specialize (Hin Hvne). apply in_map_iff in Hin.
    destruct Hin as (e & He & Hin). exists e. auto.
Qed.

Section FooterCounts.

(** For a magnitude that is a number exactly one of the three footer tests
    holds. *)
Lemma footer_classes (m : float) :
  notNaN m ->
  (if Js.ge m 5 then 1 else 0) +
  (if Js.ge m 3 && JsNum.lt m 5 then 1 else 0) +
  (if JsNum.lt m 3 then 1 else 0) = 1.
Proof.
  unfold notNaN. intros Hm. apply is_nan_false in Hm.
  unfold Js.ge, JsNum.lt.
  rewrite !(ltb_negb_leb m _ Hm) by discriminate.
  assert (H53 : (5 <=? m)%float = true -> (3 <=? m)%float = true).
  { apply leb_trans. reflexivity. }
  destruct (5 <=? m)%float, (3 <=? m)%float; simpl; try reflexivity.
  specialize (H53 eq_refl). discriminate.
Qed.

Lemma filter_length_count {A : Type} (f : A -> bool) (l : list A) :
  Z.of_nat (List.length (Js.array_filter f l)) =
  fold_right (fun x acc => (if f x then 1 else 0) + acc) 0 l.
Proof.
  unfold Js.array_filter. induction l as [| x l IH]; [reflexivity |].
  simpl. destruct (f x); simpl List.length; lia.
Qed.

End FooterCounts.

(** X13. When every event has a magnitude that is a number (the map builds
    a marker for each of its events, which needs one), the three counts of
    the map's footer (5.0 and more, 3.0 to below 5.0, below 3.0) add up to
    the number of events. *)
Theorem footer_counts_add_up (events : list Earthquake) :
  Forall magnitudePresent events ->
  (countMajor events + countModerate events + countMinor events)%nat =
  List.length events.
Proof.
  intros Hall. apply Nat2Z.inj. rewrite !Nat2Z.inj_add.
  unfold countMajor, countModerate, countMinor. rewrite !filter_length_count.
  induction Hall as [| e l He _ IH]; [reflexivity |].
  cbn [fold_right List.length]. rewrite Nat2Z.inj_succ.
  destruct He as (m & Hm & Hn). rewrite Hm. cbn [Js.toNumber].
  pose proof (footer_classes m Hn) as H1.
  lia.
Qed.

Lemma footer_counts_add_up_witness :
  Forall magnitudePresent (eventWithoutPlace :: eventBelowZero :: scenario "a" "b" "c" 3 2 1) /\
  (countMajor (eventWithoutPlace :: eventBelowZero :: scenario "a" "b" "c" 3 2 1) +
   countModerate (eventWithoutPlace :: eventBelowZero :: scenario "a" "b" "c" 3 2 1) +
   countMinor (eventWithoutPlace :: eventBelowZero :: scenario "a" "b" "c" 3 2 1))%nat = 5%nat.
Proof.
  assert (H : Forall magnitudePresent
                (eventWithoutPlace :: eventBelowZero :: scenario "a" "b" "c" 3 2 1)).
  { repeat constructor; eexists; split; reflexivity. }
  split; [exact H |].
  exact (footer_counts_add_up _ H).
Defined.

Section TierOrder.

Lemma ge_raised (m1 m2 t : float) :
  (m1 <=? m2)%float = true -> Js.ge m1 t = true -> Js.ge m2 t = true.
Proof. unfold Js.ge. intros H12 Ht. exact (leb_trans t m1 m2 Ht H12). Qed.

Lemma tierIndex_antitone (m1 m2 : float) :
  (m1 <=? m2)%float = true -> (tierIndex m2 <= tierIndex m1)%nat.
Proof.
  intros H. unfold tierIndex.
  pose proof (ge_raised m1 m2 7 H) as H7.
  pose proof (ge_raised m1 m2 5.5 H) as H55.
  pose proof (ge_raised m1 m2 4 H) as H4.
  pose proof (ge_raised m1 m2 2.5 H) as H25.
  destruct (thresholds_chain m2) as (C1 & C2 & C3).
  destruct (Js.ge m1 7), (Js.ge m1 5.5), (Js.ge m1 4), (Js.ge m1 2.5);
    try (specialize (H7 eq_refl)); try (specialize (H55 eq_refl));
    try (specialize (H4 eq_refl)); try (specialize (H25 eq_refl));
    destruct (Js.ge m2 7), (Js.ge m2 5.5), (Js.ge m2 4), (Js.ge m2 2.5);
    try discriminate; try lia;
    try (specialize (C1 eq_refl); discriminate);
    try (specialize (C2 eq_refl); discriminate);
    try (specialize (C3 eq_refl); discriminate).
Qed.

Lemma marker_by_tier (m : float) :
  getMarkerColors m = nth (tierIndex m) markerPalettes (mkMarkerColors "" "" "").
Proof.
  unfold getMarkerColors, tierIndex.
  destruct (Js.ge m 7), (Js.ge m 5.5), (Js.ge m 4), (Js.ge m 2.5); reflexivity.
Qed.

Lemma markerPalettes_NoDup : NoDup markerPalettes.
Proof. repeat constructor; simpl; intuition discriminate. Qed.

End TierOrder.

(** X14. The tier never goes down when the magnitude goes up: for
    [m1 <= m2] the tier name of [m2] stands in the list Major, Strong,
    Moderate, Minor, Micro at the position of the tier name of [m1] or
    before it. *)
Theorem getMagnitudeLevel_monotone (m1 m2 : float) :
  (m1 <=? m2)%float = true ->
  exists i j : nat,
    (j <= i < 5)%nat /\
    getMagnitudeLevel m1 = nth i levelNames "" /\
    getMagnitudeLevel m2 = nth j levelNames "".
Proof.
  intros H. exists (tierIndex m1), (tierIndex m2).
  split; [| split; apply level_by_tier].
  split; [exact (tierIndex_antitone m1 m2 H) | apply tierIndex_bound].
Qed.

Lemma getMagnitudeLevel_monotone_witness :
  (4.5 <=? 6)%float = true /\
  exists i j : nat,
    (j <= i < 5)%nat /\
    getMagnitudeLevel 4.5 = nth i levelNames "" /\
    getMagnitudeLevel 6 = nth j levelNames "".
Proof.
  split; [reflexivity |].
  exact (getMagnitudeLevel_monotone 4.5 6 eq_refl).
Defined.

(** X15. The map markers are coloured by the same thresholds as the badges:
    two magnitudes get the same marker palette exactly when they get the
    same badge colour, and exactly when they get the same tier name. *)
Theorem getMarkerColors_follow_tiers :
  forall m1 m2 : float,
    (getMarkerColors m1 = getMarkerColors m2 <->
     getMagnitudeColor m1 = getMagnitudeColor m2) /\
    (getMarkerColors m1 = getMarkerColors m2 <->
     getMagnitudeLevel m1 = getMagnitudeLevel m2).
Proof.
  intros m1 m2.
  rewrite !marker_by_tier, !color_by_tier, !level_by_tier.
  pose proof (tierIndex_bound m1) as B1. pose proof (tierIndex_bound m2) as B2.
  assert (M : nth (tierIndex m1) markerPalettes (mkMarkerColors "" "" "") =
              nth (tierIndex m2) markerPalettes (mkMarkerColors "" "" "") <->
              tierIndex m1 = tierIndex m2).
  { split; [| now intros ->].
    intros H. exact (proj1 (NoDup_nth markerPalettes _) markerPalettes_NoDup _ _ B1 B2 H). }
  assert (C : nth (tierIndex m1) colorTokens "" = nth (tierIndex m2) colorTokens "" <->
              tierIndex m1 = tierIndex m2).
  { split; [| now intros ->].
    intros H. exact (proj1 (NoDup_nth colorTokens _) colorTokens_NoDup _ _ B1 B2 H). }
  assert (L : nth (tierIndex m1) levelNames "" = nth (tierIndex m2) levelNames "" <->
              tierIndex m1 = tierIndex m2).
  { split; [| now intros ->].
    intros H. exact (proj1 (NoDup_nth levelNames _) levelNames_NoDup _ _ B1 B2 H). }
  rewrite M, C, L. tauto.
Qed.

(** X16. The size of a marker is clamped: unless [magnitude * 8] is NaN
    (then the size is NaN), the size is at least 24 and at most 60. *)
Theorem baseSize_clamped :
  forall magnitude : float,
    (PrimFloat.is_nan (magnitude * 8)%float = true ->
     PrimFloat.is_nan (baseSize magnitude) = true) /\
    (PrimFloat.is_nan (magnitude * 8)%float = false ->
     (24 <=? baseSize magnitude)%float = true /\
     (baseSize magnitude <=? 60)%float = true).
Proof.
  intros magnitude. unfold baseSize, JsNum.mathMax, JsNum.mathMin.
  cbn [fold_left].
  change (JsNum.min_step infinity 60) with 60%float.
  change (JsNum.max_step neg_infinity 24) with 24%float.
  set (p := (magnitude * 8)%float). split; intros Hp.
  - unfold JsNum.min_step. rewrite Hp. reflexivity.
  - destruct (min_step_spec 60 p eq_refl Hp) as (_ & Qn & Q60 & _).
    destruct (max_step_spec 24 (JsNum.min_step 60 p) eq_refl Qn) as (Rcase & _ & R24 & _).
    split; [exact R24 |].
    destruct Rcase as [-> | ->]; [reflexivity | exact Q60].
Qed.

(* ================================================================= *)
(** * Properties of the component's cells and panels *)

Section AppFacts.

Lemma step_modalInvariant (state : HookState * App.Cells) (a : App.Action) :
  modalInvariant (snd state) -> modalInvariant (snd (App.step state a)).
Proof.
  destruct state as [h c]. unfold modalInvariant.
  destruct a; simpl; intros H; try exact H.
  - split; [discriminate | reflexivity].
  - split; [discriminate | congruence].
Qed.

(** The [finally] clause runs on every path. *)
Lemma afterFetch_loading (reply : FetchReply) (clock : Z) (h : HookState) :
  loading (afterFetch reply clock h) = false.
Proof.
  unfold afterFetch, fetchEarthquakes, try_catch_finally, bind, setLoading.
  destruct reply as [reason | status [e | features]]; simpl;
    try reflexivity; destruct (ok status); reflexivity.
Qed.

Lemma step_loading (state : HookState * App.Cells) (a : App.Action) :
  loading (fst state) = false -> loading (fst (App.step state a)) = false.
Proof.
  destruct state as [h c]. destruct a; simpl; intros H; try exact H.
  apply afterFetch_loading.
Qed.

Lemma fold_step_invariant (P : HookState * App.Cells -> Prop) :
  (forall state a, P state -> P (App.step state a)) ->
  forall (actions : list App.Action) (state : HookState * App.Cells),
    P state -> P (fold_left App.step actions state).
Proof.
  intros Hstep actions. induction actions as [| a actions IH]; intros state H.
  - exact H.
  - simpl. apply IH. apply Hstep. exact H.
Qed.

Lemma filtered_length (h : HookState) (c : App.Cells) :
  (List.length (App.filtered h c) <= List.length (earthquakes h))%nat.
Proof.
  unfold App.filtered, filteredEarthquakes, Js.array_filter. apply filter_length_le.
Qed.

Lemma panels_when_idle (h : HookState) (c : App.Cells) :
  loading h = false -> App.panelsShown h c = 1%nat.
Proof.
  intros Hl. pose proof (filtered_length h c) as Hlen.
  unfold App.panelsShown, App.showSpinner, App.showError, App.showNoMatch,
    App.showNoData, App.showMap, App.showList.
  rewrite Hl. destruct (App.errorTruthy h); simpl; [reflexivity |].
  destruct (Nat.eqb_spec (List.length (App.filtered h c)) 0) as [Hf | Hf];
    destruct (Nat.eqb_spec (List.length (earthquakes h)) 0) as [He | He];
    destruct (Nat.ltb_spec 0 (List.length (earthquakes h)));
    destruct (Nat.ltb_spec 0 (List.length (App.filtered h c)));
    destruct (App.activeView c); simpl; lia.
Qed.

End AppFacts.

(** X17. In every state the component can reach (the mount, then any
    clicks, closings, filter edits, view changes, theme toggles and
    refreshes) the dialog is open exactly when an event is selected, and the
    dialog then shows the selected event. *)
Theorem modal_open_iff_selected :
  forall (reply : FetchReply) (clock : Z) (actions : list App.Action),
    modalInvariant (snd (App.run reply clock actions)) /\
    App.modalShown (snd (App.run reply clock actions)) =
    App.selectedEarthquake (snd (App.run reply clock actions)).
Proof.
  intros reply clock actions.
  assert (I : modalInvariant (snd (App.run reply clock actions))).
  { unfold App.run.
    apply (fold_step_invariant (fun st => modalInvariant (snd st)) step_modalInvariant).
    split; [discriminate | intros H; now contradiction H]. }
  split; [exact I |].
  unfold modalInvariant in I. unfold App.modalShown.
  destruct (App.selectedEarthquake (snd (App.run reply clock actions))) as [e |];
    [| reflexivity].
  destruct (App.isModalOpen (snd (App.run reply clock actions))); [reflexivity |].
  assert (false = true) by (apply I; discriminate). discriminate.
Qed.

Section Render.

Lemma mapThrows_true (events : list Earthquake) :
  mapThrows events = true <->
  exists e : Earthquake, In e events /\ mag (properties e) = None.
Proof.
  unfold mapThrows. rewrite existsb_exists. unfold markerThrows.
  split; intros (e & He & H); exists e; (split; [exact He |]);
    destruct (mag (properties e)); congruence.
Qed.

Lemma filtered_In (h : HookState) (c : App.Cells) (e : Earthquake) :
  In e (App.filtered h c) -> In e (earthquakes h).
Proof.
  unfold App.filtered, filteredEarthquakes, Js.array_filter.
  intros H. apply filter_In in H. tauto.
Qed.

Lemma contentRendered_none (h : HookState) (c : App.Cells) :
  contentRendered h c = None <->
  App.showMap h c = true /\
  exists e : Earthquake, In e (App.filtered h c) /\ mag (properties e) = None.
Proof.
  unfold contentRendered. rewrite <- mapThrows_true.
  destruct (App.showMap h c), (mapThrows (App.filtered h c)); simpl;
    split; try discriminate; try tauto; intros [? ?]; discriminate.
Qed.

End Render.

(** X18. In every state the component can reach once its fetches have
    completed, the spinner's condition is off and exactly one content
    panel's condition holds (the error message, "no earthquakes match", "no
    recent earthquakes", the map or the list).  Rendering throws exactly
    when that panel is the map and one of the displayed events has no
    magnitude; when every stored event has a magnitude, exactly one content
    panel is rendered. *)
Theorem one_panel_shown :
  forall (reply : FetchReply) (clock : Z) (actions : list App.Action),
    let h := fst (App.run reply clock actions) in
    let c := snd (App.run reply clock actions) in
    App.showSpinner h = false /\
    App.panelsShown h c = 1%nat /\
    (contentRendered h c = None <->
     App.showMap h c = true /\
     exists e : Earthquake, In e (App.filtered h c) /\ mag (properties e) = None) /\
    (Forall (fun e => mag (properties e) <> None) (earthquakes h) ->
     contentRendered h c = Some 1%nat).
Proof.
  intros reply clock actions h c.
  assert (L : loading h = false).
  { subst h. unfold App.run.
    apply (fold_step_invariant (fun st => loading (fst st) = false) step_loading).
    apply afterFetch_loading. }
  pose proof (panels_when_idle h c L) as P.
  split; [exact L | split; [exact P | split; [apply contentRendered_none |]]].
  intros Hall.
  destruct (contentRendered h c) as [n |] eqn:E.
  - unfold contentRendered in E.
    destruct (App.showMap h c && mapThrows (App.filtered h c)); [discriminate |].
    injection E as <-. now rewrite P.
  - apply contentRendered_none in E. destruct E as (_ & e & He & Hnone).
    apply filtered_In in He.
    exact (False_ind _ (proj1 (Forall_forall _ _) Hall e He Hnone)).
Qed.

(** X19. Which failures reach the screen: a response with a non-success
    status always shows the error panel, and so does a rejection with a
    value that is not an [Error]; a rejection with an [Error] shows it
    exactly when the message is not the empty string; a full success never
    shows it. *)
Theorem error_panel_visibility :
  forall (clock : Z) (h : HookState),
    (forall (status : Z) (body : Js.Thrown + list Earthquake),
        ok status = false ->
        App.showError (afterFetch (Resolves status body) clock h) = true) /\
    App.showError (afterFetch (Rejects Js.OtherValue) clock h) = true /\
    (forall message : string,
        App.showError (afterFetch (Rejects (Js.ErrorObject message)) clock h) =
        negb (String.eqb message "")) /\
    (forall (status : Z) (features : list Earthquake),
        ok status = true ->
        App.showError (afterFetch (Resolves status (inr features)) clock h) = false).
Proof.
  intros clock h. unfold App.showError, App.errorTruthy.
  split; [| split; [| split]].
  - intros status body Hok.
    now rewrite (afterFetch_failure clock h (Resolves status body) Hok).
  - now rewrite (afterFetch_failure clock h (Rejects Js.OtherValue) I).
  - intros message.
    now rewrite (afterFetch_failure clock h (Rejects (Js.ErrorObject message)) I).
  - intros status features Hok.
    now rewrite (afterFetch_success clock h status features Hok).
Qed.

(* ================================================================= *)
(** * Properties of the coordinate and depth texts *)

Section FixedText.

Lemma allDigits_append (a b : string) :
  allDigits (a ++ b) = allDigits a && allDigits b.
Proof.
  induction a as [| c a IH]; simpl; [reflexivity |].
  now rewrite IH, andb_assoc.
Qed.

Lemma length_append (a b : string) :
  String.length (a ++ b) = (String.length a + String.length b)%nat.
Proof. induction a as [| c a IH]; simpl; [reflexivity | now rewrite IH]. Qed.

Lemma allDigits_zeros (n : nat) : allDigits (JsText.zeros n) = true.
Proof. induction n as [| n IH]; simpl; [reflexivity | exact IH]. Qed.

Lemma length_zeros (n : nat) : String.length (JsText.zeros n) = n.
Proof. induction n as [| n IH]; simpl; [reflexivity | now rewrite IH]. Qed.

Lemma take_drop (n : nat) (s : string) : JsText.take n s ++ JsText.drop n s = s.
Proof.
  revert s. induction n as [| n IH]; intros [| c s]; simpl; try reflexivity.
  now rewrite IH.
Qed.

Lemma length_drop (n : nat) (s : string) :
  String.length (JsText.drop n s) = (String.length s - n)%nat.
Proof.
  revert s. induction n as [| n IH]; intros [| c s]; simpl; try reflexivity.
  apply IH.
Qed.

Lemma length_take (n : nat) (s : string) :
  (n <= String.length s)%nat -> String.length (JsText.take n s) = n.
Proof.
  revert s. induction n as [| n IH]; intros [| c s]; simpl; intros H;
    try reflexivity; try lia.
  rewrite IH; [reflexivity | lia].
Qed.

Lemma uint_digits (d : Decimal.uint) :
  allDigits (NilEmpty.string_of_uint d) = true.
Proof. induction d; simpl; auto. Qed.

Lemma numberToString_digits (n : Z) :
  0 <= n ->
  allDigits (Js.numberToString n) = true /\ Js.numberToString n <> "".
Proof.
  intros Hn. unfold Js.numberToString.
  destruct n as [| p | p]; [split; [reflexivity | discriminate] | | lia].
  simpl. unfold NilZero.string_of_uint.
  pose proof (uint_digits (Pos.to_uint p)) as D.
  destruct (Pos.to_uint p) eqn:E; simpl in *; split; try exact D; discriminate.
Qed.

Lemma fixedText_shape (f : nat) (n : Z) :
  (0 < f)%nat -> 0 <= n -> fixedPoint f (JsText.fixedText f n).
Proof.
  intros Hf Hn. unfold JsText.fixedText.
  destruct (numberToString_digits n Hn) as [D Hne].
  destruct (Nat.eqb_spec f 0) as [-> | _]; [lia |]. cbv zeta.
  set (m := Js.numberToString n) in *.
  set (m' := if (String.length m <=? f)%nat
             then JsText.zeros (f + 1 - String.length m) ++ m else m).
  assert (D' : allDigits m' = true).
  { subst m'. destruct (String.length m <=? f)%nat; [| exact D].
    now rewrite allDigits_append, allDigits_zeros, D. }
  assert (L' : (f < String.length m')%nat).
  { subst m'. destruct (Nat.leb_spec (String.length m) f) as [H | H]; [| exact H].
    rewrite length_append, length_zeros. lia. }
  pose proof (take_drop (String.length m' - f) m') as TD.
  rewrite <- TD, allDigits_append in D'. apply andb_true_iff in D'.
  exists (JsText.take (String.length m' - f) m'), (JsText.drop (String.length m' - f) m').
  split; [reflexivity |]. split; [| split; [tauto | split; [tauto |]]].
  - intros E. apply (f_equal String.length) in E.
    rewrite length_take in E by lia. simpl in E. lia.
  - rewrite length_drop. lia.
Qed.

End FixedText.

Section FixedFloat.

Lemma digits2_pos_bound (m : positive) : Zpos m < 2 ^ Zpos (digits2_pos m).
Proof.
  induction m as [p IH | p IH |]; simpl digits2_pos.
  - rewrite Pos2Z.inj_succ, Z.pow_succ_r by lia. lia.
  - rewrite Pos2Z.inj_succ, Z.pow_succ_r by lia. lia.
  - reflexivity.
Qed.

(** The mantissa of a binary64 value has at most 53 bits. *)
Lemma mantissa_bound (x : float) (s : bool) (m : positive) (e : Z) :
  Prim2SF x = S754_finite s m e -> Zpos m < 2 ^ 53.
Proof.
  intros Hx. pose proof (Prim2SF_valid x) as V. rewrite Hx in V.
  unfold valid_binary, bounded, canonical_mantissa, fexp in V.
  apply andb_true_iff in V. destruct V as [V _].
  apply Z.eqb_eq in V.
  assert (D : Zpos (digits2_pos m) <= 53) by (unfold prec in V; lia).
  pose proof (digits2_pos_bound m) as B.
  pose proof (Z.pow_le_mono_r 2 (Zpos (digits2_pos m)) 53 ltac:(lia) D). lia.
Qed.

Lemma below_1e21 (m : positive) (e : Z) :
  SFltb (S754_finite false m e) (Prim2SF 1e21) = true ->
  e < 17 \/ (e = 17 /\ Zpos m < 7629394531250000).
Proof.
  assert (E : Prim2SF 1e21 = S754_finite false 7629394531250000 17)
    by (vm_compute; reflexivity).
  rewrite E. unfold SFltb, SFcompare. clear E.
  destruct (Z.compare_spec e 17) as [-> | He | He]; [| left; exact He | discriminate].
  rewrite Pos.compare_cont_spec. simpl Pos.switch_Eq.
  destruct (Pos.compare_spec m 7629394531250000) as [| Hlt |]; try discriminate.
  intros _. right. split; [reflexivity |]. exact (Pos2Z.pos_lt_pos _ _ Hlt).
Qed.

(** A non-negative value below 10^21 passes the range test of [toFixed]. *)
Lemma in_range (m : positive) (e : Z) :
  Zpos m < 2 ^ 53 ->
  SFltb (S754_finite false m e) (Prim2SF 1e21) = true ->
  JsText.atLeast1e21 m e = false.
Proof.
  intros Hm H. apply below_1e21 in H.
  assert (P53 : 2 ^ 53 = 9007199254740992) by reflexivity.
  assert (P21 : 10 ^ 21 = 1000000000000000000000) by reflexivity.
  unfold JsText.atLeast1e21. rewrite P21. rewrite P53 in Hm.
  destruct (Z.leb_spec 0 e) as [H0 | H0]; apply Z.leb_gt.
  - destruct H as [He | [-> Hlt]].
    + pose proof (Z.pow_le_mono_r 2 e 16 ltac:(lia) ltac:(lia)) as P.
      assert (0 < 2 ^ e) by (apply Z.pow_pos_nonneg; lia).
      assert (P16 : 2 ^ 16 = 65536) by reflexivity. rewrite P16 in P.
      apply Z.le_lt_trans with (9007199254740992 * 65536); [| reflexivity].
      apply Z.mul_le_mono_nonneg; lia.
    + assert (P17 : 2 ^ 17 = 131072) by reflexivity. rewrite P17. lia.
  - assert (0 < 2 ^ (- e)) by (apply Z.pow_pos_nonneg; lia).
    apply Z.lt_le_trans with (1000000000000000000000 * 1); [lia |].
    apply Z.mul_le_mono_nonneg_l; lia.
Qed.

Lemma nearestScaled_nonneg (f : nat) (m : positive) (e : Z) :
  0 <= JsText.nearestScaled f m e.
Proof.
  unfold JsText.nearestScaled. cbv zeta.
  assert (0 <= Zpos m * 10 ^ Z.of_nat f).
  { apply Z.mul_nonneg_nonneg; [lia | apply Z.pow_nonneg; lia]. }
  destruct (Z.leb_spec 0 e) as [H0 | H0].
  - apply Z.mul_nonneg_nonneg; [assumption | apply Z.pow_nonneg; lia].
  - assert (0 < 2 ^ (- e)) by (apply Z.pow_pos_nonneg; lia).
    apply Z.div_pos; lia.
Qed.

(** The text of a value whose absolute value is below 10^21: a minus sign
    when the value is negative, then a fixed-point text. *)
Lemma toFixed_shape (f : nat) (x : float) :
  (0 < f)%nat ->
  SFltb (SFabs (Prim2SF x)) (Prim2SF 1e21) = true ->
  exists body : string,
    fixedPoint f body /\
    JsText.toFixed f x = Some ((if (x <? 0)%float then "-" else "") ++ body).
Proof.
  intros Hf H. unfold JsText.toFixed. rewrite ltb_spec.
  change (Prim2SF 0) with (S754_zero false).
  destruct (Prim2SF x) as [s | s | | s m e] eqn:Hx; simpl SFabs in H.
  - exists (JsText.fixedText f 0). split; [apply fixedText_shape; lia |].
    reflexivity.
  - discriminate.
  - discriminate.
  - rewrite (in_range m e (mantissa_bound x s m e Hx) H).
    exists (JsText.fixedText f (JsText.nearestScaled f m e)).
    split; [apply fixedText_shape; [exact Hf | apply nearestScaled_nonneg] |].
    destruct s; reflexivity.
Qed.





End FixedFloat.

Section Hemisphere.



End Hemisphere.



(** The example of the spec. *)
Example formatCoordinates_example :
  formatCoordinates (-122.4) 37.8 = Some "37.8000°N, 122.4000°W".
Proof. vm_compute. reflexivity. Qed.

(** X21. For a depth whose absolute value is below 10^21 the depth text is a
    minus sign exactly when the depth is below zero, then a fixed-point
    number with exactly one decimal, then " km". *)
Theorem formatDepth_shape (depth : float) :
  (abs depth <? 1e21)%float = true ->
  exists body : string,
    fixedPoint 1 body /\
    formatDepth depth =
    Some ((if (depth <? 0)%float then "-" else "") ++ body ++ " km").
Proof.
  intros H. rewrite ltb_spec, abs_spec in H.
  destruct (toFixed_shape 1 depth ltac:(lia) H) as (body & Fb & E).
  exists body. split; [exact Fb |].
  unfold formatDepth. rewrite E. now rewrite append_assoc.
Qed.

Lemma formatDepth_shape_witness :
  (abs (-0.5) <? 1e21)%float = true /\
  exists body : string,
    fixedPoint 1 body /\
    formatDepth (-0.5) =
    Some ((if (-0.5 <? 0)%float then "-" else "") ++ body ++ " km").
Proof.
  split; [reflexivity |].
  exact (formatDepth_shape (-0.5) eq_refl).
Defined.
